(** * Employee Attendance API (main.py): geofenced check-in

    A shallow embedding of [main.py].  Python floats are IEEE binary64 values,
    modelled by Rocq's primitive floats; the three module-level dictionaries
    are insertion-ordered association lists; handlers run in a state and
    exception monad over the three stores.  The values drawn by the pydantic
    default factories ([uuid.uuid4], [datetime.datetime.utcnow]) are inputs of
    each handler call. *)

From Stdlib Require Import ZArith NArith List String Ascii Bool Lia.
From Stdlib Require Import Floats DecimalString.
Import ListNotations.

Set Warnings "-inexact-float".

Local Open Scope string_scope.
Local Open Scope list_scope.

(** ** Python runtime values used by the module *)

(** [uuid.UUID], by its 128-bit integer value ([UUID.int]). *)
Definition UUID := N.

(** [datetime.datetime] as returned by [utcnow()]: a naive UTC instant, in
    microseconds since the epoch. *)
Definition datetime := Z.

Module Dict.

(** A Python [dict]: keys are unique and iteration follows insertion
    order. *)
Definition t (V : Type) := list (UUID * V).

Definition empty {V} : t V := [].

(** [d.get(k)] *)
Fixpoint get {V} (d : t V) (k : UUID) : option V :=
  match d with
  | [] => None
  | (k', v) :: d' => if N.eqb k k' then Some v else get d' k
  end.

(** [k in d] *)
Definition contains {V} (d : t V) (k : UUID) : bool :=
  match get d k with Some _ => true | None => false end.

(** [d[k] = v]: an existing key keeps its position and takes the new value,
    a new key goes to the end. *)
Fixpoint set {V} (d : t V) (k : UUID) (v : V) : t V :=
  match d with
  | [] => [(k, v)]
  | (k', v') :: d' =>
      if N.eqb k k' then (k', v) :: d' else (k', v') :: set d' k v
  end.

(** [list(d.values())] *)
Definition values {V} (d : t V) : list V := map snd d.

End Dict.

(** Exceptions raised by the module: [fastapi.HTTPException] with its status
    code and detail, the [ValueError] of a validator, and the
    [pydantic.ValidationError] a model constructor wraps it in. *)
Inductive exn : Type :=
| HTTPException (status_code : Z) (detail : string)
| ValueError (msg : string)
| ValidationError (field : string) (msg : string).

Definition HTTP_400_BAD_REQUEST : Z := 400.
Definition HTTP_404_NOT_FOUND : Z := 404.
Definition HTTP_409_CONFLICT : Z := 409.

Inductive result (A : Type) : Type :=
| Ok (a : A)
| Raise (e : exn).
Arguments Ok {A} a.
Arguments Raise {A} e.

(** ** Configuration *)

Definition MAX_CHECKIN_DISTANCE_METERS : Z := 1000.

(** An [int] operand of a float comparison.  Python compares the exact
    values; every integer below 2^53 in magnitude is a float, so the
    conversion is exact for the constants of this module. *)
Definition float_of_int (n : Z) : float :=
  match n with
  | Z0 => 0%float
  | Zpos _ => PrimFloat.of_uint63 (Uint63.of_Z n)
  | Zneg _ => PrimFloat.opp (PrimFloat.of_uint63 (Uint63.of_Z (Z.opp n)))
  end.

(** The exact value of a float, counted in units of 2^-1074: every finite
    binary64 number is a whole number of them.  NaN and the infinities have
    none. *)
Definition SF_units (f : spec_float) : option Z :=
  match f with
  | S754_zero _ => Some 0%Z
  | S754_finite s m e =>
      Some ((if s then -1 else 1) * (Zpos m * 2 ^ (e + 1074)))%Z
  | _ => None
  end.

Definition float_units (x : float) : option Z := SF_units (Prim2SF x).

(** [x] is a number whose value lies between the integers [lo] and [hi]. *)
Definition value_within (lo hi : Z) (x : float) : Prop :=
  exists u : Z,
    float_units x = Some u /\ (lo * 2 ^ 1074 <= u <= hi * 2 ^ 1074)%Z.

(** A (longitude, latitude) pair with longitude in [-180, 180] and latitude
    in [-90, 90]. *)
Definition valid_pair (v : float * float) : Prop :=
  value_within (-180) 180 (fst v) /\ value_within (-90) 90 (snd v).

(** [lo <= x <= hi] on floats, as Python evaluates the chained comparison. *)
Definition within (lo hi : Z) (x : float) : bool :=
  PrimFloat.leb (float_of_int lo) x && PrimFloat.leb x (float_of_int hi).

(** Longitude in [-180, 180] and latitude in [-90, 90]. *)
Definition in_range (v : float * float) : bool :=
  within (-180) 180 (fst v) && within (-90) 90 (snd v).

(** ** GeoJSON point *)

Inductive Literal_Point : Type := Point.

Record GeoPoint : Type := mkGeoPoint {
  type : Literal_Point;
  coordinates : float * float   (* (longitude, latitude) *)
}.

(** [GeoPoint.validate_coordinates] *)
Definition validate_coordinates (v : float * float) : result (float * float) :=
  let '(longitude, latitude) := v in
  if negb (PrimFloat.leb (float_of_int (-180)) longitude
           && PrimFloat.leb longitude (float_of_int 180)) then
    Raise (ValueError "Longitude must be between -180 and 180")
  else if negb (PrimFloat.leb (float_of_int (-90)) latitude
                && PrimFloat.leb latitude (float_of_int 90)) then
    Raise (ValueError "Latitude must be between -90 and 90")
  else Ok v.

(** [GeoPoint(coordinates=v)]: the model constructor runs the validator and
    reports its [ValueError] as a [ValidationError] on the field. *)
Definition GeoPoint_init (v : float * float) : result GeoPoint :=
  match validate_coordinates v with
  | Ok v' => Ok (mkGeoPoint Point v')
  | Raise (ValueError msg) => Raise (ValidationError "coordinates" msg)
  | Raise e => Raise e
  end.

(** ** [str(UUID)] and [str(int)] *)

Definition hex_char (d : N) : ascii :=
  match String.get (N.to_nat d) "0123456789abcdef" with
  | Some c => c
  | None => "0"%char
  end.

(** ['%0{n}x' % x]: the [n] low hexadecimal digits of [x]. *)
Fixpoint hex_digits (n : nat) (x : N) : string :=
  match n with
  | O => EmptyString
  | S k => hex_digits k (N.div x 16) ++ String (hex_char (N.modulo x 16)) EmptyString
  end.

(** [UUID.__str__]: 32 hexadecimal digits grouped 8-4-4-4-12. *)
Definition str_UUID (u : UUID) : string :=
  let hex := hex_digits 32 u in
  substring 0 8 hex ++ "-" ++ substring 8 4 hex ++ "-" ++ substring 12 4 hex
  ++ "-" ++ substring 16 4 hex ++ "-" ++ substring 20 12 hex.

Definition str_int (n : Z) : string :=
  DecimalString.NilZero.string_of_int (Z.to_int n).

(** ** Model definitions *)

Module OrganizationBase.
Record t : Type := mk { name : string; location : GeoPoint }.
End OrganizationBase.

Module Organization.
Record t : Type := mk { name : string; location : GeoPoint; id : UUID }.
End Organization.

Module EmployeeBase.
Record t : Type := mk { name : string; organization_id : UUID }.
End EmployeeBase.

Module Employee.
Record t : Type := mk { name : string; organization_id : UUID; id : UUID }.
End Employee.

Module Attendance.
Record t : Type := mk {
  employee_id : UUID;
  location : GeoPoint;
  id : UUID;
  timestamp : datetime;
  organization_id : option UUID;
  distance_meters : option float
}.
End Attendance.

Module CheckInRequest.
Record t : Type := mk { employee_id : UUID; location : GeoPoint }.
End CheckInRequest.

(** What the default factories of one model construction return:
    [uuid.uuid4()] for [id] and [datetime.datetime.utcnow()] for
    [timestamp]. *)
Record Env : Type := mkEnv { uuid4 : UUID; utcnow : datetime }.

(** [Organization] built from the keywords of [org_data.dict()]: the
    location goes through the [GeoPoint] constructor again, since [dict()]
    turns it into a plain mapping. *)
Definition Organization_init (env : Env) (org_data : OrganizationBase.t)
  : result Organization.t :=
  match GeoPoint_init (coordinates (OrganizationBase.location org_data)) with
  | Ok loc => Ok (Organization.mk (OrganizationBase.name org_data) loc (uuid4 env))
  | Raise e => Raise e
  end.

(** [Employee] built from the keywords of [employee_data.dict()]. *)
Definition Employee_init (env : Env) (employee_data : EmployeeBase.t)
  : Employee.t :=
  Employee.mk (EmployeeBase.name employee_data)
              (EmployeeBase.organization_id employee_data) (uuid4 env).

(** [Attendance(employee_id=..., location=..., organization_id=...,
    distance_meters=...)]: a [GeoPoint] instance is taken as it is. *)
Definition Attendance_init (env : Env) (employee_id : UUID)
    (location : GeoPoint) (organization_id : UUID) (distance_meters : float)
  : Attendance.t :=
  Attendance.mk employee_id location (uuid4 env) (utcnow env)
                (Some organization_id) (Some distance_meters).

(** ** In-memory storage and the handler monad *)

Record Store : Type := mkStore {
  organizations_db : Dict.t Organization.t;
  employees_db : Dict.t Employee.t;
  attendance_db : Dict.t Attendance.t
}.

Definition initial_store : Store := mkStore Dict.empty Dict.empty Dict.empty.

(** A handler reads and writes the stores and returns or raises. *)
Definition M (A : Type) : Type := Store -> result A * Store.

Definition ret {A} (a : A) : M A := fun s => (Ok a, s).

Definition raise {A} (e : exn) : M A := fun s => (Raise e, s).

Definition bind {A B} (m : M A) (k : A -> M B) : M B :=
  fun s =>
    match m s with
    | (Ok a, s') => k a s'
    | (Raise e, s') => (Raise e, s')
    end.

Definition lift {A} (r : result A) : M A := fun s => (r, s).

Definition read {A} (proj : Store -> A) : M A := fun s => (Ok (proj s), s).

Definition set_organizations (d : Dict.t Organization.t) : M unit :=
  fun s => (Ok tt, mkStore d (employees_db s) (attendance_db s)).

Definition set_employees (d : Dict.t Employee.t) : M unit :=
  fun s => (Ok tt, mkStore (organizations_db s) d (attendance_db s)).

Definition set_attendance (d : Dict.t Attendance.t) : M unit :=
  fun s => (Ok tt, mkStore (organizations_db s) (employees_db s) d).

Declare Scope handler_scope.
Delimit Scope handler_scope with handler.
Notation "x <- m ;; k" := (bind m (fun x => k))
  (at level 61, m at next level, right associativity) : handler_scope.
Notation "m ;; k" := (bind m (fun _ => k))
  (at level 61, right associativity) : handler_scope.
Local Open Scope handler_scope.

(** ** Executable instances of the library functions

    The handlers below take the geodesic, [round(x, 2)] and the ['.2f']
    format as parameters.  These instances let them run on concrete inputs:
    decimal rounding to two places (ties on the exact binary value go to the
    even neighbour) and a flat-earth distance that is accurate near the
    equator. *)

Module Instance.

(** The integer nearest to [m * 2^e * 100], ties to even. *)
Definition hundredths (m : positive) (e : Z) : Z :=
  if (0 <=? e)%Z then (Zpos m * 2 ^ e * 100)%Z
  else
    let den := (2 ^ (- e))%Z in
    let num := (Zpos m * 100)%Z in
    let q := (num / den)%Z in
    let r := (num mod den)%Z in
    if ((den <? 2 * r) || ((2 * r =? den) && Z.odd q))%Z then (q + 1)%Z else q.

Definition round_2 (x : float) : float :=
  match Prim2SF x with
  | S754_finite s m e =>
      if (0 <=? e)%Z then x
      else
        let r := PrimFloat.div (float_of_int (hundredths m e)) 100%float in
        if s then PrimFloat.opp r else r
  | _ => x
  end.

Definition two_digits (n : Z) : string :=
  (if (n <? 10)%Z then "0" else "") ++ str_int n.

Definition format_2f (x : float) : string :=
  match Prim2SF x with
  | S754_nan => "nan"
  | S754_infinity s => if s then "-inf" else "inf"
  | S754_zero s => if s then "-0.00" else "0.00"
  | S754_finite s m e =>
      let n := hundredths m e in
      (if s then "-" else "") ++ str_int (n / 100) ++ "."
      ++ two_digits (n mod 100)
  end.

(** Metres between two (latitude, longitude) pairs given in degrees, on a
    plane with 111195 m per degree. *)
Definition flat_meters (c1 c2 : float * float) : float :=
  let dlat := PrimFloat.sub (fst c2) (fst c1) in
  let dlon := PrimFloat.sub (snd c2) (snd c1) in
  PrimFloat.mul 111195%float
    (PrimFloat.sqrt (PrimFloat.add (PrimFloat.mul dlat dlat)
                                   (PrimFloat.mul dlon dlon))).

End Instance.

(** ** Requests

    A request as the framework hands it over: path and decoded JSON body.
    The body of a POST is turned into the handler's model argument by the
    model constructors; when they raise, the handler is not called. *)

Inductive request : Type :=
| GET_root
| POST_organizations (name : string) (coords : float * float)
| GET_organizations
| POST_attendance_checkin (employee_id : UUID) (coords : float * float)
| GET_attendance
| GET_employees_id (employee_id : UUID)
| POST_employees (name : string) (organization_id : UUID)
| GET_employees.

Inductive response : Type :=
| RMessage (message : string)
| ROrganization (o : Organization.t)
| ROrganizations (l : list Organization.t)
| RAttendance (a : Attendance.t)
| RAttendances (l : list Attendance.t)
| REmployee (e : Employee.t)
| REmployees (l : list Employee.t).

(** ** Fixtures

    An organization at (lon=0, lat=0) and one employee of it, as the
    processing of two creation requests leaves them, and check-in locations
    about 556 m and 5560 m to the north. *)

Module Fixture.

Definition origin : GeoPoint := mkGeoPoint Point (0%float, 0%float).

Definition near : float * float := (0%float, 0.005%float).

Definition far : float * float := (0%float, 0.05%float).

Definition org0 : Organization.t := Organization.mk "Example Corp" origin 1%N.

Definition emp0 : Employee.t := Employee.mk "Jane Doe" 1%N 2%N.

Definition store0 : Store := mkStore [(1%N, org0)] [(2%N, emp0)] [].

Definition env3 : Env := mkEnv 3%N 1700000000000000%Z.

Definition env4 : Env := mkEnv 4%N 1700000060000000%Z.

(** The record of a check-in at [near] handled with [env3]. *)
Definition att3 : Attendance.t :=
  Attendance.mk 2%N (mkGeoPoint Point near) 3%N 1700000000000000%Z
                (Some 1%N) (Some 555.98%float).

Definition store1 : Store := mkStore [(1%N, org0)] [(2%N, emp0)] [(3%N, att3)].

(** A geodesic under which every two points are 1000 m apart. *)
Definition always_1000 (c1 c2 : float * float) : float := 1000%float.

(** The record of a check-in at [near] handled with [env3] under
    [always_1000]. *)
Definition att3_1000 : Attendance.t :=
  Attendance.mk 2%N (mkGeoPoint Point near) 3%N 1700000000000000%Z
                (Some 1%N) (Some 1000%float).

Definition store1_1000 : Store :=
  mkStore [(1%N, org0)] [(2%N, emp0)] [(3%N, att3_1000)].

(** Creating the organization and the employee, then checking in at
    [near]. *)
Definition session : list (Env * request) :=
  [ (mkEnv 1%N 1699999000000000%Z,
     POST_organizations "Example Corp" (0%float, 0%float));
    (mkEnv 2%N 1699999500000000%Z, POST_employees "Jane Doe" 1%N);
    (env3, POST_attendance_checkin 2%N near) ].

(** An organization to register at the origin, and one whose location is
    out of range. *)
Definition org_data0 : OrganizationBase.t :=
  OrganizationBase.mk "Example Corp" origin.

Definition org_data_bad : OrganizationBase.t :=
  OrganizationBase.mk "Nowhere" (mkGeoPoint Point (200%float, 0%float)).

Definition env1 : Env := mkEnv 1%N 1699999000000000%Z.

Definition env2 : Env := mkEnv 2%N 1699999500000000%Z.

(** Stores holding an employee whose organization is missing. *)
Definition store_orphan : Store := mkStore [] [(2%N, emp0)] [].

End Fixture.

(** ** The application *)

Section App.

(** [geopy.distance.geodesic(c1, c2).meters], on (latitude, longitude)
    pairs. *)
Variable geodesic_meters : float * float -> float * float -> float.

(** The built-in [round(x, 2)]. *)
Variable round_2 : float -> float.

(** [format(x, '.2f')], as in the f-string of [check_in]. *)
Variable format_2f : float -> string.

(** *** Helper functions

    [dict.get] returns [None] for a missing key and a model instance is
    always true, so [not employee] holds exactly when the key is missing. *)

Definition get_employee_or_404 (employee_id : UUID) : M Employee.t :=
  db <- read employees_db ;;
  match Dict.get db employee_id with
  | None =>
      raise (HTTPException HTTP_404_NOT_FOUND
               ("Employee with id " ++ str_UUID employee_id ++ " not found"))
  | Some employee => ret employee
  end.

Definition get_organization_or_404 (org_id : UUID) : M Organization.t :=
  db <- read organizations_db ;;
  match Dict.get db org_id with
  | None =>
      raise (HTTPException HTTP_404_NOT_FOUND
               ("Organization with id " ++ str_UUID org_id ++ " not found"))
  | Some organization => ret organization
  end.

Definition calculate_distance_meters (point1 point2 : GeoPoint) : float :=
  let coords1 := (snd (coordinates point1), fst (coordinates point1)) in
  let coords2 := (snd (coordinates point2), fst (coordinates point2)) in
  geodesic_meters coords1 coords2.

(** *** Endpoints *)

Definition read_root : M string :=
  ret "Welcome to the Employee Attendance API".

Definition create_organization (env : Env) (org_data : OrganizationBase.t)
  : M Organization.t :=
  new_org <- lift (Organization_init env org_data) ;;
  db <- read organizations_db ;;
  if Dict.contains db (Organization.id new_org) then
    raise (HTTPException HTTP_409_CONFLICT "Organization ID conflict")
  else
    set_organizations (Dict.set db (Organization.id new_org) new_org) ;;
    ret new_org.

Definition list_organizations : M (list Organization.t) :=
  db <- read organizations_db ;;
  ret (Dict.values db).

(** The detail of the exception raised at step 4 of [check_in]; the
    threshold is an [int] and prints without a decimal point. *)
Definition too_far_detail (distance : float) : string :=
  "Check-in location is too far from the organization. "
  ++ "Distance: " ++ format_2f distance ++ "m, Allowed: "
  ++ str_int MAX_CHECKIN_DISTANCE_METERS ++ "m".

Definition check_in (env : Env) (check_in_data : CheckInRequest.t)
  : M Attendance.t :=
  (* 1. Find the employee *)
  employee <- get_employee_or_404 (CheckInRequest.employee_id check_in_data) ;;
  (* 2. Find the employee's organization *)
  organization <- get_organization_or_404 (Employee.organization_id employee) ;;
  (* 3. Calculate distance *)
  let distance :=
    calculate_distance_meters (CheckInRequest.location check_in_data)
                              (Organization.location organization) in
  (* 4. Validate distance *)
  if PrimFloat.ltb (float_of_int MAX_CHECKIN_DISTANCE_METERS) distance then
    raise (HTTPException HTTP_400_BAD_REQUEST (too_far_detail distance))
  else
    (* 5. Create and store attendance record *)
    let attendance_record :=
      Attendance_init env (Employee.id employee)
                      (CheckInRequest.location check_in_data)
                      (Organization.id organization)
                      (round_2 distance) in
    db <- read attendance_db ;;
    if Dict.contains db (Attendance.id attendance_record) then
      raise (HTTPException HTTP_409_CONFLICT "Attendance record ID conflict")
    else
      set_attendance (Dict.set db (Attendance.id attendance_record)
                               attendance_record) ;;
      ret attendance_record.

Definition list_attendance : M (list Attendance.t) :=
  db <- read attendance_db ;;
  ret (Dict.values db).

Definition get_employee (employee_id : UUID) : M Employee.t :=
  employee <- get_employee_or_404 employee_id ;;
  ret employee.

Definition create_employee (env : Env) (employee_data : EmployeeBase.t)
  : M Employee.t :=
  (* Check if organization exists *)
  get_organization_or_404 (EmployeeBase.organization_id employee_data) ;;
  let new_employee := Employee_init env employee_data in
  db <- read employees_db ;;
  if Dict.contains db (Employee.id new_employee) then
    raise (HTTPException HTTP_409_CONFLICT "Employee ID conflict")
  else
    set_employees (Dict.set db (Employee.id new_employee) new_employee) ;;
    ret new_employee.

Definition list_employees : M (list Employee.t) :=
  db <- read employees_db ;;
  ret (Dict.values db).

Definition OrganizationBase_init (name : string) (coords : float * float)
  : result OrganizationBase.t :=
  match GeoPoint_init coords with
  | Ok loc => Ok (OrganizationBase.mk name loc)
  | Raise e => Raise e
  end.

Definition CheckInRequest_init (employee_id : UUID) (coords : float * float)
  : result CheckInRequest.t :=
  match GeoPoint_init coords with
  | Ok loc => Ok (CheckInRequest.mk employee_id loc)
  | Raise e => Raise e
  end.

Definition handle (env : Env) (r : request) : M response :=
  match r with
  | GET_root => m <- read_root ;; ret (RMessage m)
  | POST_organizations name coords =>
      org_data <- lift (OrganizationBase_init name coords) ;;
      o <- create_organization env org_data ;;
      ret (ROrganization o)
  | GET_organizations => l <- list_organizations ;; ret (ROrganizations l)
  | POST_attendance_checkin employee_id coords =>
      check_in_data <- lift (CheckInRequest_init employee_id coords) ;;
      a <- check_in env check_in_data ;;
      ret (RAttendance a)
  | GET_attendance => l <- list_attendance ;; ret (RAttendances l)
  | GET_employees_id employee_id =>
      e <- get_employee employee_id ;; ret (REmployee e)
  | POST_employees name organization_id =>
      e <- create_employee env (EmployeeBase.mk name organization_id) ;;
      ret (REmployee e)
  | GET_employees => l <- list_employees ;; ret (REmployees l)
  end.

(** The stores the process can be in: the empty ones at start-up, then
    whatever the handled requests leave. *)
Inductive reachable : Store -> Prop :=
| reachable_init : reachable initial_store
| reachable_step (s : Store) (env : Env) (r : request) :
    reachable s -> reachable (snd (handle env r s)).

(** *** Store properties *)

(** Every [GeoPoint] held by a store. *)
Definition stored_points (s : Store) : list GeoPoint :=
  map Organization.location (Dict.values (organizations_db s))
  ++ map Attendance.location (Dict.values (attendance_db s)).

(** Every organization is filed under its own id. *)
Definition organizations_keyed (s : Store) : Prop :=
  forall (k : UUID) (o : Organization.t),
    In (k, o) (organizations_db s) -> k = Organization.id o.

(** An attendance record names an organization of the store and carries the
    rounding of a distance to it that passed the geofence test. *)
Definition attendance_ok (s : Store) (a : Attendance.t) : Prop :=
  exists (oid : UUID) (organization : Organization.t) (d : float),
    Attendance.organization_id a = Some oid
    /\ Dict.get (organizations_db s) oid = Some organization
    /\ Attendance.distance_meters a = Some (round_2 d)
    /\ d = calculate_distance_meters (Attendance.location a)
                                     (Organization.location organization)
    /\ PrimFloat.ltb (float_of_int MAX_CHECKIN_DISTANCE_METERS) d = false.

Definition store_inv (s : Store) : Prop :=
  organizations_keyed s
  /\ Forall (attendance_ok s) (Dict.values (attendance_db s)).

(** Handling a sequence of requests, one after the other; the results in
    the order of the requests, and the final stores. *)
Fixpoint run (reqs : list (Env * request)) (s : Store)
  : list (result response) * Store :=
  match reqs with
  | [] => ([], s)
  | (env, r) :: rest =>
      let (res, s') := handle env r s in
      let (rs, s'') := run rest s' in
      (res :: rs, s'')
  end.

(** The organizations returned by the successful creations among the
    results. *)
Fixpoint created_organizations (rs : list (result response))
  : list Organization.t :=
  match rs with
  | [] => []
  | Ok (ROrganization o) :: rs' => o :: created_organizations rs'
  | _ :: rs' => created_organizations rs'
  end.

(** *** Further store properties *)

Definition is_POST (r : request) : bool :=
  match r with
  | POST_organizations _ _ | POST_attendance_checkin _ _
  | POST_employees _ _ => true
  | _ => false
  end.

(** Every value of the dictionary is filed under the id it carries. *)
Definition keyed {V : Type} (id : V -> UUID) (d : Dict.t V) : Prop :=
  forall (k : UUID) (v : V), In (k, v) d -> k = id v.

(** Every employee belongs to a stored organization. *)
Definition employees_linked (s : Store) : Prop :=
  forall (k : UUID) (e : Employee.t),
    In (k, e) (employees_db s) ->
    exists o : Organization.t,
      Dict.get (organizations_db s) (Employee.organization_id e) = Some o.

(** Every attendance record is that of a stored employee, names the
    employee's organization, and carries the rounded distance between its
    location and that of the organization. *)
Definition attendance_linked (s : Store) : Prop :=
  forall (k : UUID) (a : Attendance.t),
    In (k, a) (attendance_db s) ->
    exists (e : Employee.t) (o : Organization.t),
      Dict.get (employees_db s) (Attendance.employee_id a) = Some e
      /\ Dict.get (organizations_db s) (Employee.organization_id e) = Some o
      /\ Attendance.organization_id a = Some (Employee.organization_id e)
      /\ Attendance.distance_meters a
         = Some (round_2 (calculate_distance_meters
                            (Attendance.location a)
                            (Organization.location o))).

Definition store_wf (s : Store) : Prop :=
  keyed Organization.id (organizations_db s)
  /\ keyed Employee.id (employees_db s)
  /\ keyed Attendance.id (attendance_db s)
  /\ NoDup (map fst (organizations_db s))
  /\ NoDup (map fst (employees_db s))
  /\ NoDup (map fst (attendance_db s))
  /\ employees_linked s
  /\ attendance_linked s.

(** The employees returned by the successful [POST /employees] requests, and
    the records returned by the successful check-ins. *)
Fixpoint created_employees (reqs : list (Env * request))
    (rs : list (result response)) : list Employee.t :=
  match reqs, rs with
  | (_, POST_employees _ _) :: reqs', Ok (REmployee e) :: rs' =>
      e :: created_employees reqs' rs'
  | _ :: reqs', _ :: rs' => created_employees reqs' rs'
  | _, _ => []
  end.

Fixpoint recorded_attendance (rs : list (result response))
  : list Attendance.t :=
  match rs with
  | [] => []
  | Ok (RAttendance a) :: rs' => a :: recorded_attendance rs'
  | _ :: rs' => recorded_attendance rs'
  end.

(** ** Float comparison and exact values *)

Local Open Scope Z_scope.

Lemma digits2_pos_bounds (m : positive) :
  2 ^ (Zpos (digits2_pos m) - 1) <= Zpos m < 2 ^ Zpos (digits2_pos m).
Proof.
  induction m as [m IH|m IH|]; cbn [digits2_pos].
  - rewrite Pos2Z.inj_succ.
    replace (Z.succ (Zpos (digits2_pos m)) - 1) with (Z.succ (Zpos (digits2_pos m) - 1)) by lia.
    rewrite !Z.pow_succ_r by lia. lia.
  - rewrite Pos2Z.inj_succ.
    replace (Z.succ (Zpos (digits2_pos m)) - 1) with (Z.succ (Zpos (digits2_pos m) - 1)) by lia.
    rewrite !Z.pow_succ_r by lia. lia.
  - cbn. lia.
Qed.

Lemma bounded_facts (m : positive) (e : Z) :
  SpecFloat.bounded prec emax m e = true ->
  -1074 <= e /\ Zpos m < 2 ^ 53 /\ (-1074 < e -> 2 ^ 52 <= Zpos m).
Proof.
  unfold SpecFloat.bounded, canonical_mantissa, fexp, emin, prec, emax.
  intros H. apply andb_prop in H. destruct H as [H _].
  apply Z.eqb_eq in H.
  pose proof (digits2_pos_bounds m) as [Hlo Hhi].
  set (d := Zpos (digits2_pos m)) in *.
  assert (Hd : 0 < d) by (unfold d; lia).
  split; [lia|]. split.
  - assert (d <= 53) by lia.
    apply Z.lt_le_trans with (2 ^ d); [exact Hhi|].
    apply Z.pow_le_mono_r; lia.
  - intros He. assert (d = 53) by lia.
    replace 52 with (d - 1) by lia. exact Hlo.
Qed.

Lemma magnitude_compare (m1 m2 : positive) (e1 e2 : Z) :
  SpecFloat.bounded prec emax m1 e1 = true ->
  SpecFloat.bounded prec emax m2 e2 = true ->
  match e1 ?= e2 with
  | Lt => Lt
  | Gt => Gt
  | Eq => Pos.compare_cont Eq m1 m2
  end
  = (Zpos m1 * 2 ^ (e1 + 1074) ?= Zpos m2 * 2 ^ (e2 + 1074)).
Proof.
  intros H1 H2.
  apply bounded_facts in H1. destruct H1 as (L1 & U1 & N1).
  apply bounded_facts in H2. destruct H2 as (L2 & U2 & N2).
  change (2 ^ 53) with 9007199254740992 in *.
  change (2 ^ 52) with 4503599627370496 in *.
  symmetry.
  destruct (Z.compare_spec e1 e2) as [E|E|E].
  - subst e2. change (Pos.compare_cont Eq m1 m2) with (Zpos m1 ?= Zpos m2).
    assert (0 < 2 ^ (e1 + 1074)) by (apply Z.pow_pos_nonneg; lia).
    destruct (Z.compare_spec (Zpos m1) (Zpos m2)) as [C|C|C].
    + rewrite C. apply Z.compare_refl.
    + apply Z.compare_lt_iff. nia.
    + apply Z.compare_gt_iff. nia.
  - apply Z.compare_lt_iff.
    assert (P : 0 < 2 ^ (e1 + 1074)) by (apply Z.pow_pos_nonneg; lia).
    replace (e2 + 1074) with ((e1 + 1074) + (e2 - e1)) by lia.
    rewrite (Z.pow_add_r 2 (e1 + 1074) (e2 - e1)) by lia.
    assert (Q : 2 ^ 1 <= 2 ^ (e2 - e1)) by (apply Z.pow_le_mono_r; lia).
    change (2 ^ 1) with 2 in Q.
    specialize (N2 ltac:(lia)).
    set (p := 2 ^ (e1 + 1074)) in *. set (q := 2 ^ (e2 - e1)) in *.
    assert (A : Zpos m1 * p < 9007199254740992 * p)
      by (apply Z.mul_lt_mono_pos_r; assumption).
    assert (B : 4503599627370496 * (p * 2) <= Zpos m2 * (p * q))
      by (apply Z.mul_le_mono_nonneg; nia).
    lia.
  - apply Z.compare_gt_iff.
    assert (P : 0 < 2 ^ (e2 + 1074)) by (apply Z.pow_pos_nonneg; lia).
    replace (e1 + 1074) with ((e2 + 1074) + (e1 - e2)) by lia.
    rewrite (Z.pow_add_r 2 (e2 + 1074) (e1 - e2)) by lia.
    assert (Q : 2 ^ 1 <= 2 ^ (e1 - e2)) by (apply Z.pow_le_mono_r; lia).
    change (2 ^ 1) with 2 in Q.
    specialize (N1 ltac:(lia)).
    set (p := 2 ^ (e2 + 1074)) in *. set (q := 2 ^ (e1 - e2)) in *.
    assert (A : Zpos m2 * p < 9007199254740992 * p)
      by (apply Z.mul_lt_mono_pos_r; assumption).
    assert (B : 4503599627370496 * (p * 2) <= Zpos m1 * (p * q))
      by (apply Z.mul_le_mono_nonneg; nia).
    lia.
Qed.

Lemma SFcompare_units (f1 f2 : spec_float) :
  SpecFloat.valid_binary prec emax f1 = true ->
  SpecFloat.valid_binary prec emax f2 = true ->
  match SF_units f1, SF_units f2 with
  | Some u1, Some u2 => SFcompare f1 f2 = Some (u1 ?= u2)
  | _, _ => True
  end.
Proof.
  intros V1 V2.
  assert (P : forall m e, bounded prec emax m e = true ->
                          0 < Zpos m * 2 ^ (e + 1074)).
  { intros m e B. apply bounded_facts in B. destruct B as (L & _ & _).
    apply Z.mul_pos_pos; [lia | apply Z.pow_pos_nonneg; lia]. }
  destruct f1 as [s1| | |s1 m1 e1], f2 as [s2| | |s2 m2 e2];
    cbv beta iota delta [SF_units SFcompare SpecFloat.valid_binary] in *;
    try exact I; f_equal.
  - specialize (P _ _ V2). symmetry.
    destruct s2; [apply Z.compare_gt_iff | apply Z.compare_lt_iff]; lia.
  - specialize (P _ _ V1). symmetry.
    destruct s1; [apply Z.compare_lt_iff | apply Z.compare_gt_iff]; lia.
  - pose proof (magnitude_compare m1 m2 e1 e2 V1 V2) as M.
    pose proof (P _ _ V1) as P1. pose proof (P _ _ V2) as P2.
    destruct s1, s2.
    + replace (match e1 ?= e2 with
               | Eq => CompOpp (Pos.compare_cont Eq m1 m2)
               | Lt => Gt
               | Gt => Lt
               end)
        with (CompOpp (match e1 ?= e2 with
                       | Eq => Pos.compare_cont Eq m1 m2
                       | Lt => Lt
                       | Gt => Gt
                       end))
        by (destruct (e1 ?= e2); reflexivity).
      rewrite M.
      replace (-1 * (Zpos m1 * 2 ^ (e1 + 1074)))
        with (- (Zpos m1 * 2 ^ (e1 + 1074))) by lia.
      replace (-1 * (Zpos m2 * 2 ^ (e2 + 1074)))
        with (- (Zpos m2 * 2 ^ (e2 + 1074))) by lia.
      rewrite Z.compare_opp. symmetry. apply Z.compare_antisym.
    + symmetry. apply Z.compare_lt_iff. lia.
    + symmetry. apply Z.compare_gt_iff. lia.
    + rewrite M. f_equal; lia.
Qed.

Lemma leb_units (a b : float) (ua ub : Z) :
  float_units a = Some ua -> float_units b = Some ub ->
  PrimFloat.leb a b = (ua <=? ub).
Proof.
  unfold float_units. intros Ha Hb.
  rewrite leb_spec. unfold SFleb.
  pose proof (SFcompare_units _ _ (Prim2SF_valid a) (Prim2SF_valid b)) as C.
  rewrite Ha, Hb in C. rewrite C.
  unfold Z.leb. destruct (ua ?= ub); reflexivity.
Qed.

(** A float without a value is not between two numbers. *)
Lemma leb_no_units (lo hi x : float) (ulo uhi : Z) :
  float_units lo = Some ulo -> float_units hi = Some uhi ->
  float_units x = None ->
  PrimFloat.leb lo x && PrimFloat.leb x hi = false.
Proof.
  unfold float_units. intros Hlo Hhi Hx.
  rewrite !leb_spec. unfold SFleb.
  destruct (Prim2SF x) as [s|s| |s m e]; try discriminate.
  - destruct s.
    + destruct (Prim2SF lo) as [s'|s'| |s' m' e']; try discriminate; reflexivity.
    + destruct (Prim2SF hi) as [s'|s'| |s' m' e']; try discriminate;
        apply andb_false_r.
  - destruct (Prim2SF lo) as [s'|s'| |s' m' e']; reflexivity.
Qed.

Lemma within_value (lo hi : Z) (x : float) :
  float_units (float_of_int lo) = Some (lo * 2 ^ 1074) ->
  float_units (float_of_int hi) = Some (hi * 2 ^ 1074) ->
  within lo hi x = true <-> value_within lo hi x.
Proof.
  intros Hlo Hhi. unfold within, value_within.
  destruct (float_units x) as [u|] eqn:Hx.
  - rewrite (leb_units _ _ _ _ Hlo Hx), (leb_units _ _ _ _ Hx Hhi).
    rewrite andb_true_iff, !Z.leb_le. split.
    + intros H. exists u. auto.
    + intros (u' & E & H). inversion E; subst. exact H.
  - rewrite (leb_no_units _ _ _ _ _ Hlo Hhi Hx). split.
    + discriminate.
    + intros (u' & E & _). discriminate.
Qed.

Lemma in_range_valid (v : float * float) :
  in_range v = true <-> valid_pair v.
Proof.
  unfold in_range, valid_pair. rewrite andb_true_iff.
  rewrite (within_value (-180) 180) by (vm_compute; reflexivity).
  rewrite (within_value (-90) 90) by (vm_compute; reflexivity).
  reflexivity.
Qed.

Local Close Scope Z_scope.

(** ** Dictionary facts *)

Lemma Dict_contains_false {V} (d : Dict.t V) (k : UUID) :
  Dict.contains d k = false <-> Dict.get d k = None.
Proof.
  unfold Dict.contains. destruct (Dict.get d k); split; congruence.
Qed.

Lemma Dict_contains_true {V} (d : Dict.t V) (k : UUID) :
  Dict.contains d k = true <-> exists v, Dict.get d k = Some v.
Proof.
  unfold Dict.contains. destruct (Dict.get d k) as [v|]; split.
  - eauto.
  - reflexivity.
  - discriminate.
  - intros [v H]. discriminate.
Qed.

(** Assigning to a key that is not in the dictionary appends the item. *)
Lemma Dict_set_fresh {V} (d : Dict.t V) (k : UUID) (v : V) :
  Dict.get d k = None -> Dict.set d k v = d ++ [(k, v)].
Proof.
  induction d as [|[k' v'] d IH]; simpl; intros H.
  - reflexivity.
  - destruct (N.eqb k k'); [discriminate|].
    rewrite (IH H). reflexivity.
Qed.

Lemma Dict_get_app {V} (d1 d2 : Dict.t V) (k : UUID) :
  Dict.get (d1 ++ d2) k
  = match Dict.get d1 k with Some v => Some v | None => Dict.get d2 k end.
Proof.
  induction d1 as [|[k' v'] d1 IH]; simpl.
  - reflexivity.
  - destruct (N.eqb k k'); [reflexivity | exact IH].
Qed.

Lemma Dict_values_app {V} (d1 d2 : Dict.t V) :
  Dict.values (d1 ++ d2) = Dict.values d1 ++ Dict.values d2.
Proof. unfold Dict.values. apply map_app. Qed.

(** An item of the dictionary is found under its key, provided the keys are
    those of the items before it. *)
Lemma Dict_get_In {V} (d : Dict.t V) (k : UUID) (v : V) :
  Dict.get d k = Some v -> In (k, v) d.
Proof.
  induction d as [|[k' v'] d IH]; simpl; intros H.
  - discriminate.
  - destruct (N.eqb k k') eqn:E.
    + apply N.eqb_eq in E. left. congruence.
    + right. auto.
Qed.

Lemma Dict_In_contains {V} (d : Dict.t V) (k : UUID) (v : V) :
  In (k, v) d -> Dict.contains d k = true.
Proof.
  intros H. apply Dict_contains_true.
  induction d as [|[k' v'] d IH]; simpl in *.
  - contradiction.
  - destruct (N.eqb k k') eqn:E; [eauto|].
    destruct H as [H|H]; [|auto].
    inversion H; subst. rewrite N.eqb_refl in E. discriminate.
Qed.

(** ** The check-in decision *)

Ltac run_handler :=
  unfold check_in, create_employee, create_organization, get_employee,
    list_organizations, list_employees, list_attendance, read_root,
    get_employee_or_404, get_organization_or_404,
    bind, read, ret, raise, lift,
    set_organizations, set_employees, set_attendance;
  cbv beta iota.

Lemma too_far_detail_eq (distance : float) :
  too_far_detail distance
  = ("Check-in location is too far from the organization. Distance: "
     ++ format_2f distance ++ "m, Allowed: 1000m")%string.
Proof. reflexivity. Qed.

(** C6. A check-in whose [employee_id] is not a key of [employees_db] raises
    the 404 exception whose detail names that employee id, and leaves the
    stores, the attendance collection among them, as they were. *)
Theorem check_in_unknown_employee
    (env : Env) (check_in_data : CheckInRequest.t) (s : Store) :
  Dict.get (employees_db s) (CheckInRequest.employee_id check_in_data) = None ->
  check_in env check_in_data s
  = (Raise (HTTPException 404
       ("Employee with id "
        ++ str_UUID (CheckInRequest.employee_id check_in_data)
        ++ " not found")%string), s)
  /\ fst (list_attendance (snd (check_in env check_in_data s)))
     = fst (list_attendance s).
Proof.
  intros H.
  assert (E : check_in env check_in_data s
              = (Raise (HTTPException 404
                   ("Employee with id "
                    ++ str_UUID (CheckInRequest.employee_id check_in_data)
                    ++ " not found")%string), s)).
  { run_handler. rewrite H. reflexivity. }
  split; [exact E | rewrite E; reflexivity].
Qed.

(** C1. When the employee and the organization resolve and the computed
    distance is greater than [MAX_CHECKIN_DISTANCE_METERS], [check_in] raises
    the 400 exception whose detail shows the distance in ['.2f'] format and
    the threshold 1000, and the stores, the attendance collection among them,
    are as they were. *)
Theorem check_in_too_far
    (env : Env) (check_in_data : CheckInRequest.t) (s : Store)
    (employee : Employee.t) (organization : Organization.t) :
  Dict.get (employees_db s) (CheckInRequest.employee_id check_in_data)
  = Some employee ->
  Dict.get (organizations_db s) (Employee.organization_id employee)
  = Some organization ->
  PrimFloat.ltb (float_of_int MAX_CHECKIN_DISTANCE_METERS)
    (calculate_distance_meters (CheckInRequest.location check_in_data)
                               (Organization.location organization)) = true ->
  check_in env check_in_data s
  = (Raise (HTTPException 400
       ("Check-in location is too far from the organization. Distance: "
        ++ format_2f (calculate_distance_meters
                        (CheckInRequest.location check_in_data)
                        (Organization.location organization))
        ++ "m, Allowed: 1000m")%string), s)
  /\ MAX_CHECKIN_DISTANCE_METERS = 1000%Z
  /\ fst (list_attendance (snd (check_in env check_in_data s)))
     = fst (list_attendance s).
Proof.
  intros He Ho Hd.
  assert (E : check_in env check_in_data s
              = (Raise (HTTPException 400
                   (too_far_detail (calculate_distance_meters
                      (CheckInRequest.location check_in_data)
                      (Organization.location organization)))), s)).
  { run_handler. rewrite He. cbv beta iota. rewrite Ho. cbv beta iota zeta.
    rewrite Hd. reflexivity. }
  rewrite too_far_detail_eq in E.
  split; [exact E | split; [reflexivity | rewrite E; reflexivity]].
Qed.

(** What [check_in] does once the employee and the organization are found,
    case by case. *)
Lemma check_in_resolved
    (env : Env) (check_in_data : CheckInRequest.t) (s : Store)
    (employee : Employee.t) (organization : Organization.t) :
  Dict.get (employees_db s) (CheckInRequest.employee_id check_in_data)
  = Some employee ->
  Dict.get (organizations_db s) (Employee.organization_id employee)
  = Some organization ->
  let distance :=
    calculate_distance_meters (CheckInRequest.location check_in_data)
                              (Organization.location organization) in
  let attendance_record :=
    Attendance.mk (Employee.id employee)
                  (CheckInRequest.location check_in_data)
                  (uuid4 env) (utcnow env)
                  (Some (Organization.id organization))
                  (Some (round_2 distance)) in
  check_in env check_in_data s
  = if PrimFloat.ltb (float_of_int MAX_CHECKIN_DISTANCE_METERS) distance then
      (Raise (HTTPException 400 (too_far_detail distance)), s)
    else if Dict.contains (attendance_db s) (uuid4 env) then
      (Raise (HTTPException 409 "Attendance record ID conflict"), s)
    else
      (Ok attendance_record,
       mkStore (organizations_db s) (employees_db s)
               (Dict.set (attendance_db s) (uuid4 env) attendance_record)).
Proof.
  intros He Ho distance attendance_record.
  run_handler. rewrite He. cbv beta iota. rewrite Ho. cbv beta iota zeta.
  fold distance.
  destruct (PrimFloat.ltb (float_of_int MAX_CHECKIN_DISTANCE_METERS) distance);
    [reflexivity|].
  unfold Attendance_init. cbn [Attendance.id].
  destruct (Dict.contains (attendance_db s) (uuid4 env)); reflexivity.
Qed.

(** C2, amended.  When the employee and the organization resolve, the
    distance is not greater than the threshold and the identifier drawn for
    the record is not yet a key of [attendance_db], [check_in] returns the
    record built from the employee's id, the submitted location, the drawn
    identifier, the current UTC instant, the id of the resolved organization
    and the distance rounded to 2 places, and appends exactly that record to
    [attendance_db]; the other stores are untouched. *)
Theorem check_in_accepted
    (env : Env) (check_in_data : CheckInRequest.t) (s : Store)
    (employee : Employee.t) (organization : Organization.t) :
  Dict.get (employees_db s) (CheckInRequest.employee_id check_in_data)
  = Some employee ->
  Dict.get (organizations_db s) (Employee.organization_id employee)
  = Some organization ->
  PrimFloat.ltb (float_of_int MAX_CHECKIN_DISTANCE_METERS)
    (calculate_distance_meters (CheckInRequest.location check_in_data)
                               (Organization.location organization)) = false ->
  Dict.contains (attendance_db s) (uuid4 env) = false ->
  exists attendance_record : Attendance.t,
    check_in env check_in_data s
    = (Ok attendance_record,
       mkStore (organizations_db s) (employees_db s)
               (attendance_db s ++ [(Attendance.id attendance_record,
                                     attendance_record)]))
    /\ Attendance.distance_meters attendance_record
       = Some (round_2 (calculate_distance_meters
                          (CheckInRequest.location check_in_data)
                          (Organization.location organization)))
    /\ Attendance.organization_id attendance_record
       = Some (Organization.id organization)
    /\ Attendance.timestamp attendance_record = utcnow env
    /\ Attendance.employee_id attendance_record = Employee.id employee
    /\ Attendance.location attendance_record
       = CheckInRequest.location check_in_data
    /\ Attendance.id attendance_record = uuid4 env
    /\ fst (list_attendance (snd (check_in env check_in_data s)))
       = Ok (Dict.values (attendance_db s) ++ [attendance_record]).
Proof.
  intros He Ho Hd Hfresh.
  pose proof (check_in_resolved env check_in_data s employee organization
                He Ho) as E.
  cbv zeta in E. rewrite Hd, Hfresh in E.
  rewrite Dict_set_fresh in E by (apply Dict_contains_false; exact Hfresh).
  eexists. split; [exact E|].
  repeat (split; [reflexivity|]).
  rewrite E. run_handler. cbn [fst snd attendance_db].
  rewrite Dict_values_app. reflexivity.
Qed.

(** X5. When the drawn identifier is already a key of [attendance_db], an
    otherwise acceptable check-in raises the 409 exception and stores
    nothing. *)
Lemma check_in_id_conflict
    (env : Env) (check_in_data : CheckInRequest.t) (s : Store)
    (employee : Employee.t) (organization : Organization.t) :
  Dict.get (employees_db s) (CheckInRequest.employee_id check_in_data)
  = Some employee ->
  Dict.get (organizations_db s) (Employee.organization_id employee)
  = Some organization ->
  PrimFloat.ltb (float_of_int MAX_CHECKIN_DISTANCE_METERS)
    (calculate_distance_meters (CheckInRequest.location check_in_data)
                               (Organization.location organization)) = false ->
  Dict.contains (attendance_db s) (uuid4 env) = true ->
  check_in env check_in_data s
  = (Raise (HTTPException 409 "Attendance record ID conflict"), s).
Proof.
  intros He Ho Hd Hc.
  pose proof (check_in_resolved env check_in_data s employee organization
                He Ho) as E.
  cbv zeta in E. rewrite Hd, Hc in E. exact E.
Qed.

(** C9, amended.  A distance equal to the threshold passes the geofence
    test: with the employee and the organization resolved and the drawn
    identifier not yet in [attendance_db], the check-in returns a record and
    stores it.  And whenever [check_in] raises the 400 exception, the employee
    and the organization were found and the distance was greater than the
    threshold. *)
Theorem check_in_threshold_strict
    (env : Env) (check_in_data : CheckInRequest.t) (s : Store) :
  (forall (employee : Employee.t) (organization : Organization.t),
      Dict.get (employees_db s) (CheckInRequest.employee_id check_in_data)
      = Some employee ->
      Dict.get (organizations_db s) (Employee.organization_id employee)
      = Some organization ->
      calculate_distance_meters (CheckInRequest.location check_in_data)
                                (Organization.location organization)
      = float_of_int MAX_CHECKIN_DISTANCE_METERS ->
      Dict.contains (attendance_db s) (uuid4 env) = false ->
      exists attendance_record : Attendance.t,
        check_in env check_in_data s
        = (Ok attendance_record,
           mkStore (organizations_db s) (employees_db s)
                   (attendance_db s ++ [(uuid4 env, attendance_record)])))
  /\ (forall (detail : string) (s' : Store),
         check_in env check_in_data s
         = (Raise (HTTPException 400 detail), s') ->
         exists (employee : Employee.t) (organization : Organization.t),
           Dict.get (employees_db s) (CheckInRequest.employee_id check_in_data)
           = Some employee
           /\ Dict.get (organizations_db s) (Employee.organization_id employee)
              = Some organization
           /\ PrimFloat.ltb (float_of_int MAX_CHECKIN_DISTANCE_METERS)
                (calculate_distance_meters
                   (CheckInRequest.location check_in_data)
                   (Organization.location organization)) = true).
Proof.
  split.
  - intros employee organization He Ho Hd Hfresh.
    pose proof (check_in_resolved env check_in_data s employee organization
                  He Ho) as E.
    cbv zeta in E. rewrite Hfresh in E. rewrite Hd in E at 1.
    change (PrimFloat.ltb (float_of_int MAX_CHECKIN_DISTANCE_METERS)
                          (float_of_int MAX_CHECKIN_DISTANCE_METERS))
      with false in E.
    cbv iota in E.
    rewrite Dict_set_fresh in E by (apply Dict_contains_false; exact Hfresh).
    eexists. exact E.
  - intros detail s' H.
    destruct (Dict.get (employees_db s)
                (CheckInRequest.employee_id check_in_data))
      as [employee|] eqn:He.
    2:{ revert H. run_handler. rewrite He. discriminate. }
    destruct (Dict.get (organizations_db s)
                (Employee.organization_id employee))
      as [organization|] eqn:Ho.
    2:{ revert H. run_handler. rewrite He. cbv beta iota. rewrite Ho.
        discriminate. }
    exists employee, organization.
    split; [reflexivity|]. split; [exact Ho|].
    pose proof (check_in_resolved env check_in_data s employee organization
                  He Ho) as E.
    cbv zeta in E. rewrite E in H.
    destruct (PrimFloat.ltb (float_of_int MAX_CHECKIN_DISTANCE_METERS)
                (calculate_distance_meters
                   (CheckInRequest.location check_in_data)
                   (Organization.location organization)));
      [reflexivity|].
    destruct (Dict.contains (attendance_db s) (uuid4 env)); discriminate.
Qed.

(** ** The registry endpoints *)

(** C7. [create_employee] raises the 404 exception naming the organization
    id and leaves the stores, the employee collection among them, as they
    were when [organization_id] is not a key of [organizations_db]; when it
    is one and the drawn identifier is not yet a key of [employees_db], it
    returns the new employee and appends it to [employees_db]. *)
Theorem create_employee_referential
    (env : Env) (employee_data : EmployeeBase.t) (s : Store) :
  (Dict.get (organizations_db s) (EmployeeBase.organization_id employee_data)
   = None ->
   create_employee env employee_data s
   = (Raise (HTTPException 404
        ("Organization with id "
         ++ str_UUID (EmployeeBase.organization_id employee_data)
         ++ " not found")%string), s)
   /\ fst (list_employees (snd (create_employee env employee_data s)))
      = fst (list_employees s))
  /\ (forall organization : Organization.t,
         Dict.get (organizations_db s)
                  (EmployeeBase.organization_id employee_data)
         = Some organization ->
         Dict.contains (employees_db s) (uuid4 env) = false ->
         let new_employee :=
           Employee.mk (EmployeeBase.name employee_data)
                       (EmployeeBase.organization_id employee_data)
                       (uuid4 env) in
         create_employee env employee_data s
         = (Ok new_employee,
            mkStore (organizations_db s)
                    (employees_db s ++ [(uuid4 env, new_employee)])
                    (attendance_db s))
         /\ fst (list_employees (snd (create_employee env employee_data s)))
            = Ok (Dict.values (employees_db s) ++ [new_employee])).
Proof.
  split.
  - intros H.
    assert (E : create_employee env employee_data s
                = (Raise (HTTPException 404
                     ("Organization with id "
                      ++ str_UUID (EmployeeBase.organization_id employee_data)
                      ++ " not found")%string), s)).
    { run_handler. rewrite H. reflexivity. }
    split; [exact E | rewrite E; reflexivity].
  - intros organization Ho Hfresh new_employee.
    assert (E : create_employee env employee_data s
                = (Ok new_employee,
                   mkStore (organizations_db s)
                     (employees_db s ++ [(uuid4 env, new_employee)])
                     (attendance_db s))).
    { run_handler. rewrite Ho. cbv beta iota zeta.
      unfold Employee_init. cbn [Employee.id]. rewrite Hfresh.
      rewrite Dict_set_fresh by (apply Dict_contains_false; exact Hfresh).
      reflexivity. }
    split; [exact E|].
    rewrite E. run_handler. cbn [fst snd employees_db].
    rewrite Dict_values_app. reflexivity.
Qed.

(** A successful [create_organization] appends the returned organization,
    filed under its id, to [organizations_db] and touches nothing else. *)
Lemma create_organization_Ok
    (env : Env) (org_data : OrganizationBase.t) (s s' : Store)
    (o : Organization.t) :
  create_organization env org_data s = (Ok o, s') ->
  s' = mkStore (organizations_db s ++ [(Organization.id o, o)])
               (employees_db s) (attendance_db s)
  /\ Dict.get (organizations_db s) (Organization.id o) = None
  /\ Organization_init env org_data = Ok o.
Proof.
  run_handler.
  destruct (Organization_init env org_data) as [new_org|e]; [|discriminate].
  destruct (Dict.contains (organizations_db s) (Organization.id new_org))
    eqn:Hc; [discriminate|].
  intros H. inversion H; subst.
  apply Dict_contains_false in Hc.
  rewrite Dict_set_fresh by exact Hc. auto.
Qed.

(** A failing [create_organization] leaves the stores as they were. *)
Lemma create_organization_Raise
    (env : Env) (org_data : OrganizationBase.t) (s s' : Store) (e : exn) :
  create_organization env org_data s = (Raise e, s') -> s' = s.
Proof.
  run_handler.
  destruct (Organization_init env org_data) as [new_org|e0].
  - destruct (Dict.contains (organizations_db s) (Organization.id new_org));
      intros H; inversion H; reflexivity.
  - intros H; inversion H; reflexivity.
Qed.

(** On any stores, the listing after a successful creation is the listing
    before it followed by the new organization. *)
Lemma list_organizations_after_create
    (env : Env) (org_data : OrganizationBase.t) (s s' : Store)
    (o : Organization.t) :
  create_organization env org_data s = (Ok o, s') ->
  fst (list_organizations s')
  = Ok (Dict.values (organizations_db s) ++ [o]).
Proof.
  intros H. apply create_organization_Ok in H. destruct H as [E _].
  subst s'. run_handler. cbn [fst organizations_db].
  rewrite Dict_values_app. reflexivity.
Qed.

(** ** Coordinate validation *)

Lemma GeoPoint_init_eq (v : float * float) :
  GeoPoint_init v
  = if in_range v then Ok (mkGeoPoint Point v)
    else Raise (ValidationError "coordinates"
                  (if within (-180) 180 (fst v)
                   then "Latitude must be between -90 and 90"
                   else "Longitude must be between -180 and 180")).
Proof.
  destruct v as [longitude latitude].
  unfold GeoPoint_init, validate_coordinates, in_range, within.
  cbn [fst snd].
  destruct (PrimFloat.leb (float_of_int (-180)) longitude
            && PrimFloat.leb longitude (float_of_int 180)); cbn [negb andb];
    [|reflexivity].
  destruct (PrimFloat.leb (float_of_int (-90)) latitude
            && PrimFloat.leb latitude (float_of_int 90)); reflexivity.
Qed.

Lemma GeoPoint_init_Ok (v : float * float) (p : GeoPoint) :
  GeoPoint_init v = Ok p -> p = mkGeoPoint Point v /\ in_range v = true.
Proof.
  rewrite GeoPoint_init_eq.
  destruct (in_range v); intros H; inversion H; auto.
Qed.

(** ** What a request does to the stores *)

Lemma check_in_cases
    (env : Env) (check_in_data : CheckInRequest.t) (s : Store) :
  (exists e : exn, check_in env check_in_data s = (Raise e, s))
  \/ (exists (employee : Employee.t) (organization : Organization.t),
         Dict.get (employees_db s) (CheckInRequest.employee_id check_in_data)
         = Some employee
         /\ Dict.get (organizations_db s) (Employee.organization_id employee)
            = Some organization
         /\ PrimFloat.ltb (float_of_int MAX_CHECKIN_DISTANCE_METERS)
              (calculate_distance_meters
                 (CheckInRequest.location check_in_data)
                 (Organization.location organization)) = false
         /\ Dict.get (attendance_db s) (uuid4 env) = None
         /\ let a :=
              Attendance.mk (Employee.id employee)
                (CheckInRequest.location check_in_data)
                (uuid4 env) (utcnow env)
                (Some (Organization.id organization))
                (Some (round_2 (calculate_distance_meters
                                  (CheckInRequest.location check_in_data)
                                  (Organization.location organization)))) in
            check_in env check_in_data s
            = (Ok a, mkStore (organizations_db s) (employees_db s)
                             (attendance_db s ++ [(uuid4 env, a)]))).
Proof.
  destruct (Dict.get (employees_db s)
              (CheckInRequest.employee_id check_in_data))
    as [employee|] eqn:He.
  2:{ left. eexists. run_handler. rewrite He. reflexivity. }
  destruct (Dict.get (organizations_db s)
              (Employee.organization_id employee))
    as [organization|] eqn:Ho.
  2:{ left. eexists. run_handler. rewrite He. cbv beta iota. rewrite Ho.
      reflexivity. }
  pose proof (check_in_resolved env check_in_data s employee organization
                He Ho) as E.
  cbv zeta in E.
  destruct (PrimFloat.ltb (float_of_int MAX_CHECKIN_DISTANCE_METERS)
              (calculate_distance_meters
                 (CheckInRequest.location check_in_data)
                 (Organization.location organization))) eqn:Hd.
  { left. eexists. exact E. }
  destruct (Dict.contains (attendance_db s) (uuid4 env)) eqn:Hc.
  { left. eexists. exact E. }
  right. exists employee, organization.
  apply Dict_contains_false in Hc.
  rewrite Dict_set_fresh in E by exact Hc.
  repeat (split; [assumption || reflexivity|]).
  cbv zeta. exact E.
Qed.

Lemma create_employee_cases
    (env : Env) (employee_data : EmployeeBase.t) (s : Store) :
  (exists e : exn, create_employee env employee_data s = (Raise e, s))
  \/ (exists new_employee : Employee.t,
         create_employee env employee_data s
         = (Ok new_employee,
            mkStore (organizations_db s)
                    (employees_db s ++ [(uuid4 env, new_employee)])
                    (attendance_db s))).
Proof.
  destruct (Dict.get (organizations_db s)
              (EmployeeBase.organization_id employee_data))
    as [organization|] eqn:Ho.
  - destruct (Dict.contains (employees_db s) (uuid4 env)) eqn:Hc.
    + left. eexists. run_handler. rewrite Ho. cbv beta iota zeta.
      unfold Employee_init. cbn [Employee.id]. rewrite Hc. reflexivity.
    + right. eexists. run_handler. rewrite Ho. cbv beta iota zeta.
      unfold Employee_init. cbn [Employee.id]. rewrite Hc.
      rewrite Dict_set_fresh by (apply Dict_contains_false; exact Hc).
      reflexivity.
  - left. eexists. run_handler. rewrite Ho. reflexivity.
Qed.

Lemma bind_Ok {A B} (m : M A) (k : A -> M B) (s s' : Store) (a : A) :
  m s = (Ok a, s') -> bind m k s = k a s'.
Proof. intros H. unfold bind. rewrite H. reflexivity. Qed.

Lemma bind_Raise {A B} (m : M A) (k : A -> M B) (s s' : Store) (e : exn) :
  m s = (Raise e, s') -> bind m k s = (Raise e, s').
Proof. intros H. unfold bind. rewrite H. reflexivity. Qed.

(** A request leaves the stores as they were, or appends one organization,
    one employee or one attendance record. *)
Lemma handle_cases (env : Env) (r : request) (s : Store) :
  (snd (handle env r s) = s
   /\ forall o : Organization.t, fst (handle env r s) <> Ok (ROrganization o))
  \/ (exists o : Organization.t,
         handle env r s
         = (Ok (ROrganization o),
            mkStore (organizations_db s ++ [(Organization.id o, o)])
                    (employees_db s) (attendance_db s))
         /\ Dict.get (organizations_db s) (Organization.id o) = None
         /\ in_range (coordinates (Organization.location o)) = true)
  \/ (exists e : Employee.t,
         handle env r s
         = (Ok (REmployee e),
            mkStore (organizations_db s)
                    (employees_db s ++ [(uuid4 env, e)])
                    (attendance_db s)))
  \/ (exists (a : Attendance.t) (employee : Employee.t)
             (organization : Organization.t),
         handle env r s
         = (Ok (RAttendance a),
            mkStore (organizations_db s) (employees_db s)
                    (attendance_db s ++ [(uuid4 env, a)]))
         /\ Dict.get (organizations_db s) (Employee.organization_id employee)
            = Some organization
         /\ Attendance.organization_id a = Some (Organization.id organization)
         /\ Attendance.distance_meters a
            = Some (round_2 (calculate_distance_meters
                               (Attendance.location a)
                               (Organization.location organization)))
         /\ PrimFloat.ltb (float_of_int MAX_CHECKIN_DISTANCE_METERS)
              (calculate_distance_meters (Attendance.location a)
                 (Organization.location organization)) = false
         /\ in_range (coordinates (Attendance.location a)) = true).
Proof.
  destruct r as [|name coords| |employee_id coords| |employee_id
                 |name organization_id|]; unfold handle.
  - left. split; [reflexivity | discriminate].
  - unfold OrganizationBase_init.
    destruct (GeoPoint_init coords) as [loc|e] eqn:Hp.
    2:{ left. rewrite (bind_Raise _ _ s s e) by reflexivity.
        split; [reflexivity | discriminate]. }
    rewrite (bind_Ok _ _ s s (OrganizationBase.mk name loc)) by reflexivity.
    destruct (create_organization env (OrganizationBase.mk name loc) s)
      as [[o|e] s'] eqn:Hc.
    + right; left. exists o.
      rewrite (bind_Ok _ _ s s' o) by exact Hc.
      apply create_organization_Ok in Hc. destruct Hc as (Es & Hfresh & Hi).
      subst s'. split; [reflexivity|]. split; [exact Hfresh|].
      unfold Organization_init in Hi. cbn [OrganizationBase.location] in Hi.
      destruct (GeoPoint_init (coordinates loc)) as [loc'|e'] eqn:Hp';
        [|discriminate].
      inversion Hi; subst o. cbn [Organization.location].
      apply GeoPoint_init_Ok in Hp'. destruct Hp' as [Eloc Hr].
      subst loc'. exact Hr.
    + left. rewrite (bind_Raise _ _ s s' e) by exact Hc.
      apply create_organization_Raise in Hc. subst s'.
      split; [reflexivity | discriminate].
  - left. split; [reflexivity | discriminate].
  - unfold CheckInRequest_init.
    destruct (GeoPoint_init coords) as [loc|e] eqn:Hp.
    2:{ left. rewrite (bind_Raise _ _ s s e) by reflexivity.
        split; [reflexivity | discriminate]. }
    rewrite (bind_Ok _ _ s s (CheckInRequest.mk employee_id loc))
      by reflexivity.
    apply GeoPoint_init_Ok in Hp. destruct Hp as [Eloc Hr]. subst loc.
    destruct (check_in_cases env
                (CheckInRequest.mk employee_id (mkGeoPoint Point coords)) s)
      as [[e E]|(employee & organization & He & Ho & Hd & Hfresh & E)].
    + left. rewrite (bind_Raise _ _ s s e) by exact E.
      split; [reflexivity | discriminate].
    + right; right; right. cbv zeta in E.
      eexists. exists employee, organization.
      rewrite (bind_Ok _ _ _ _ _ E).
      split; [reflexivity|]. split; [exact Ho|].
      cbn [Attendance.organization_id Attendance.distance_meters
           Attendance.location CheckInRequest.location coordinates] in *.
      repeat (split; [assumption || reflexivity|]). exact Hr.
  - left. split; [reflexivity | discriminate].
  - left. unfold get_employee.
    destruct (get_employee_or_404 employee_id s) as [[e|e] s'] eqn:Hg.
    + assert (s' = s).
      { revert Hg. run_handler.
        destruct (Dict.get (employees_db s) employee_id);
          intros H; inversion H; reflexivity. }
      subst s'.
      rewrite (bind_Ok _ _ s s e)
        by (rewrite (bind_Ok _ _ s s e) by exact Hg; reflexivity).
      split; [reflexivity | discriminate].
    + assert (s' = s).
      { revert Hg. run_handler.
        destruct (Dict.get (employees_db s) employee_id);
          intros H; inversion H; reflexivity. }
      subst s'.
      rewrite (bind_Raise _ _ s s e)
        by (rewrite (bind_Raise _ _ s s e) by exact Hg; reflexivity).
      split; [reflexivity | discriminate].
  - destruct (create_employee_cases env
                (EmployeeBase.mk name organization_id) s) as [[e E]|[e E]].
    + left. rewrite (bind_Raise _ _ s s e) by exact E.
      split; [reflexivity | discriminate].
    + right; right; left. exists e.
      rewrite (bind_Ok _ _ _ _ _ E). reflexivity.
  - left. split; [reflexivity | discriminate].
Qed.

(** ** Invariants of the stores *)

(** The stored (longitude, latitude) order is turned into the geodesic's
    (latitude, longitude) order, for both points. *)
Lemma calculate_distance_meters_coords
    (longitude1 latitude1 longitude2 latitude2 : float) :
  calculate_distance_meters (mkGeoPoint Point (longitude1, latitude1))
                            (mkGeoPoint Point (longitude2, latitude2))
  = geodesic_meters (latitude1, longitude1) (latitude2, longitude2).
Proof. reflexivity. Qed.

(** No request updates or deletes an entry: each store after the request is
    the store before it, possibly followed by new entries. *)
Lemma handle_append_only (env : Env) (r : request) (s : Store) :
  exists (lo : Dict.t Organization.t) (le : Dict.t Employee.t)
         (la : Dict.t Attendance.t),
    snd (handle env r s)
    = mkStore (organizations_db s ++ lo) (employees_db s ++ le)
              (attendance_db s ++ la).
Proof.
  destruct (handle_cases env r s)
    as [[E _]|[(o & E & _)|[(e & E)|(a & employee & organization & E & _)]]];
    rewrite E; cbn [snd].
  - exists [], [], []. rewrite !app_nil_r. destruct s; reflexivity.
  - exists [(Organization.id o, o)], [], []. rewrite !app_nil_r. reflexivity.
  - exists [], [(uuid4 env, e)], []. rewrite !app_nil_r. reflexivity.
  - exists [], [], [(uuid4 env, a)]. rewrite !app_nil_r. reflexivity.
Qed.

Lemma stored_points_organization (s : Store) (k : UUID) (o : Organization.t) :
  stored_points (mkStore (organizations_db s ++ [(k, o)])
                         (employees_db s) (attendance_db s))
  = map Organization.location (Dict.values (organizations_db s))
    ++ [Organization.location o]
    ++ map Attendance.location (Dict.values (attendance_db s)).
Proof.
  unfold stored_points. cbn [organizations_db attendance_db].
  rewrite Dict_values_app, map_app, <- app_assoc. reflexivity.
Qed.

Lemma stored_points_attendance (s : Store) (k : UUID) (a : Attendance.t) :
  stored_points (mkStore (organizations_db s) (employees_db s)
                         (attendance_db s ++ [(k, a)]))
  = stored_points s ++ [Attendance.location a].
Proof.
  unfold stored_points. cbn [organizations_db attendance_db].
  rewrite Dict_values_app, map_app, app_assoc. reflexivity.
Qed.

Lemma handle_points_in_range (env : Env) (r : request) (s : Store) :
  Forall (fun p => in_range (coordinates p) = true) (stored_points s) ->
  Forall (fun p => in_range (coordinates p) = true)
         (stored_points (snd (handle env r s))).
Proof.
  intros H.
  destruct (handle_cases env r s)
    as [[E _]|[(o & E & _ & Hr)|[(e & E)|(a & employee & organization & E
                                         & _ & _ & _ & _ & Hr)]]];
    rewrite E; [exact H| | |]; cbn [snd].
  - rewrite stored_points_organization.
    unfold stored_points in H. apply Forall_app in H. destruct H as [H1 H2].
    apply Forall_app. split; [exact H1|].
    apply Forall_cons; assumption.
  - exact H.
  - rewrite stored_points_attendance.
    apply Forall_app. split; [exact H|].
    apply Forall_cons; [exact Hr | apply Forall_nil].
Qed.

(** C4. Constructing a [GeoPoint] from a (longitude, latitude) pair returns
    the point holding that pair when the longitude is a number within
    [-180, 180] and the latitude a number within [-90, 90], and raises a
    validation error on the coordinates otherwise; every point held by a store
    the process can reach is within both ranges. *)
Theorem GeoPoint_range (longitude latitude : float) :
  (valid_pair (longitude, latitude) ->
   GeoPoint_init (longitude, latitude)
   = Ok (mkGeoPoint Point (longitude, latitude)))
  /\ (~ valid_pair (longitude, latitude) ->
      exists msg : string,
        GeoPoint_init (longitude, latitude)
        = Raise (ValidationError "coordinates" msg))
  /\ (forall s : Store,
         reachable s ->
         Forall (fun p => valid_pair (coordinates p)) (stored_points s)).
Proof.
  split; [|split].
  - intros H. apply in_range_valid in H.
    rewrite GeoPoint_init_eq, H. reflexivity.
  - intros H. rewrite GeoPoint_init_eq.
    destruct (in_range (longitude, latitude)) eqn:E.
    + exfalso. apply H. apply in_range_valid. exact E.
    + eexists. reflexivity.
  - intros s Hs.
    apply Forall_impl
      with (P := fun p => in_range (coordinates p) = true).
    { intros p. apply in_range_valid. }
    induction Hs as [|s env r Hs IH].
    + apply Forall_nil.
    + apply handle_points_in_range. exact IH.
Qed.

Lemma attendance_ok_mono (s s' : Store) (a : Attendance.t) :
  (forall (oid : UUID) (o : Organization.t),
      Dict.get (organizations_db s) oid = Some o ->
      Dict.get (organizations_db s') oid = Some o) ->
  attendance_ok s a -> attendance_ok s' a.
Proof.
  intros Hm (oid & organization & d & H1 & H2 & H3 & H4 & H5).
  exists oid, organization, d. auto 6.
Qed.

Lemma handle_store_inv (env : Env) (r : request) (s : Store) :
  store_inv s -> store_inv (snd (handle env r s)).
Proof.
  intros [Hk Ha].
  destruct (handle_cases env r s)
    as [[E _]|[(o & E & Hfresh & _)|[(e & E)|(a & employee & organization & E
                                         & Ho & Hoid & Hdist & Hd & _)]]];
    rewrite E; [split; assumption| | |]; cbn [snd]; split.
  - intros k o' Hin. cbn [organizations_db] in Hin.
    apply in_app_or in Hin. destruct Hin as [Hin|[Hin|[]]].
    + apply Hk. exact Hin.
    + inversion Hin; reflexivity.
  - cbn [attendance_db].
    eapply Forall_impl; [|exact Ha].
    intros a. apply attendance_ok_mono.
    intros oid o' Hg. cbn [organizations_db].
    rewrite Dict_get_app, Hg. reflexivity.
  - exact Hk.
  - cbn [attendance_db].
    eapply Forall_impl; [|exact Ha].
    intros a. apply attendance_ok_mono. auto.
  - exact Hk.
  - cbn [attendance_db]. rewrite Dict_values_app.
    apply Forall_app. split.
    + eapply Forall_impl; [|exact Ha].
      intros a'. apply attendance_ok_mono. auto.
    + apply Forall_cons; [|apply Forall_nil].
      exists (Organization.id organization), organization.
      eexists. cbn [organizations_db].
      split; [exact Hoid|]. split.
      * pose proof (Hk _ _ (Dict_get_In _ _ _ Ho)) as Ek.
        rewrite <- Ek. exact Ho.
      * split; [exact Hdist|]. split; [reflexivity | exact Hd].
Qed.

(** C10. The empty stores satisfy the invariant and every request preserves
    it; no request updates or deletes an attendance record; and so in every
    store the process can reach each attendance record has an
    [organization_id] that is a key of [organizations_db] and a
    [distance_meters] that is the 2-place rounding of a distance not greater
    than [MAX_CHECKIN_DISTANCE_METERS]. *)
Theorem attendance_invariant :
  store_inv initial_store
  /\ (forall (env : Env) (r : request) (s : Store),
         store_inv s -> store_inv (snd (handle env r s)))
  /\ (forall (env : Env) (r : request) (s : Store),
         exists la : Dict.t Attendance.t,
           attendance_db (snd (handle env r s)) = attendance_db s ++ la)
  /\ (forall s : Store,
         reachable s ->
         Forall (fun a =>
                   exists (oid : UUID) (organization : Organization.t)
                          (d : float),
                     Attendance.organization_id a = Some oid
                     /\ Dict.get (organizations_db s) oid = Some organization
                     /\ Attendance.distance_meters a = Some (round_2 d)
                     /\ PrimFloat.ltb
                          (float_of_int MAX_CHECKIN_DISTANCE_METERS) d
                        = false)
                (Dict.values (attendance_db s))).
Proof.
  assert (Hinit : store_inv initial_store).
  { split; [intros k o []| apply Forall_nil]. }
  split; [exact Hinit|]. split; [exact handle_store_inv|]. split.
  { intros env r s.
    destruct (handle_append_only env r s) as (lo & le & la & E).
    exists la. rewrite E. reflexivity. }
  intros s Hs.
  assert (Hinv : store_inv s).
  { induction Hs as [|s env r Hs IH];
      [exact Hinit | apply handle_store_inv; exact IH]. }
  destruct Hinv as [_ Ha].
  eapply Forall_impl; [|exact Ha].
  intros a (oid & organization & d & H1 & H2 & H3 & _ & H5).
  exists oid, organization, d. auto.
Qed.

Lemma reachable_run (reqs : list (Env * request)) :
  forall s : Store, reachable s -> reachable (snd (run reqs s)).
Proof.
  induction reqs as [|[env r] reqs IH]; intros s Hs; cbn [run].
  - exact Hs.
  - specialize (IH _ (reachable_step s env r Hs)).
    destruct (handle env r s) as [res s']. cbn [snd] in IH.
    destruct (run reqs s') as [rs s'']. exact IH.
Qed.

(** ** Listing order *)

Lemma run_organizations (reqs : list (Env * request)) :
  forall s : Store,
    Dict.values (organizations_db (snd (run reqs s)))
    = Dict.values (organizations_db s)
      ++ created_organizations (fst (run reqs s)).
Proof.
  induction reqs as [|[env r] reqs IH]; intros s; cbn [run].
  - cbn [fst snd created_organizations]. rewrite app_nil_r. reflexivity.
  - specialize (IH (snd (handle env r s))).
    destruct (handle env r s) as [res s'] eqn:E.
    cbn [snd] in IH.
    destruct (run reqs s') as [rs s''] eqn:Er.
    cbn [fst snd] in *. rewrite IH.
    destruct (handle_cases env r s)
      as [[E' Hn]|[(o & E' & _)|[(e & E')|(a & employee & organization & E'
                                          & _)]]];
      rewrite E in E'; cbn [fst snd] in *.
    + subst s'. destruct res as [[ | o | | | | | ]|e];
        try reflexivity.
      exfalso. apply (Hn o). rewrite E. reflexivity.
    + inversion E'; subst. cbn [organizations_db created_organizations].
      rewrite Dict_values_app, <- app_assoc. reflexivity.
    + inversion E'; subst. reflexivity.
    + inversion E'; subst. reflexivity.
Qed.

(** C8. [list_organizations] returns the organizations in the order of
    their creation: after any sequence of requests on the empty stores it
    returns the organizations that the successful creations returned, in that
    order; in particular after three successful [create_organization] calls
    it returns the three organizations in the order of the calls.  It changes
    nothing, so a second call returns what the first did. *)
Theorem list_organizations_insertion_order :
  (forall reqs : list (Env * request),
      fst (list_organizations (snd (run reqs initial_store)))
      = Ok (created_organizations (fst (run reqs initial_store))))
  /\ (forall (env1 env2 env3 : Env) (d1 d2 d3 : OrganizationBase.t)
             (s1 s2 s3 : Store) (O1 O2 O3 : Organization.t),
         create_organization env1 d1 initial_store = (Ok O1, s1) ->
         create_organization env2 d2 s1 = (Ok O2, s2) ->
         create_organization env3 d3 s2 = (Ok O3, s3) ->
         list_organizations s3 = (Ok [O1; O2; O3], s3))
  /\ (forall s : Store,
         snd (list_organizations s) = s
         /\ list_organizations (snd (list_organizations s))
            = list_organizations s).
Proof.
  split; [|split].
  - intros reqs.
    pose proof (run_organizations reqs initial_store) as H.
    cbn [initial_store organizations_db Dict.values Dict.empty map app] in H.
    run_handler. cbn [fst]. rewrite H. reflexivity.
  - intros env1 env2 env3 d1 d2 d3 s1 s2 s3 O1 O2 O3 H1 H2 H3.
    apply create_organization_Ok in H1. destruct H1 as [E1 _].
    apply create_organization_Ok in H2. destruct H2 as [E2 _].
    apply create_organization_Ok in H3. destruct H3 as [E3 _].
    subst s1 s2 s3. reflexivity.
  - intros s. split; reflexivity.
Qed.

(** ** More on dictionaries *)

Lemma Dict_get_None_keys {V} (d : Dict.t V) (k : UUID) :
  Dict.get d k = None <-> ~ In k (map fst d).
Proof.
  induction d as [|[k' v'] d IH]; simpl.
  - split; [intros _ [] | reflexivity].
  - destruct (N.eqb k k') eqn:E.
    + apply N.eqb_eq in E. subst k'. split; [discriminate|].
      intros H. exfalso. apply H. left. reflexivity.
    + apply N.eqb_neq in E. rewrite IH. split.
      * intros H [H'|H']; [congruence | auto].
      * intros H H'. apply H. right. exact H'.
Qed.

Lemma Dict_unique_fresh {V} (d : Dict.t V) (k : UUID) (v : V) :
  NoDup (map fst d) -> Dict.get d k = None ->
  NoDup (map fst (d ++ [(k, v)])).
Proof.
  intros Hn Hk. apply Dict_get_None_keys in Hk.
  rewrite map_app. simpl.
  induction (map fst d) as [|x l IH].
  - simpl. constructor; [intros [] | constructor].
  - simpl. inversion Hn; subst. constructor.
    + intros Hin. apply in_app_or in Hin. destruct Hin as [Hin|[Hin|[]]].
      * contradiction.
      * subst x. apply Hk. left. reflexivity.
    + apply IH; [assumption|]. intros Hin. apply Hk. right. exact Hin.
Qed.

Lemma Dict_In_get {V} (d : Dict.t V) (k : UUID) (v : V) :
  NoDup (map fst d) -> In (k, v) d -> Dict.get d k = Some v.
Proof.
  induction d as [|[k' v'] d IH]; simpl; intros Hn Hin.
  - contradiction.
  - inversion Hn; subst. destruct Hin as [Hin|Hin].
    + inversion Hin; subst. rewrite N.eqb_refl. reflexivity.
    + destruct (N.eqb k k') eqn:E.
      * apply N.eqb_eq in E. subst k'. exfalso. apply H1.
        apply (in_map fst) in Hin. exact Hin.
      * apply IH; assumption.
Qed.

Lemma Dict_get_app_Some {V} (d l : Dict.t V) (k : UUID) (v : V) :
  Dict.get d k = Some v -> Dict.get (d ++ l) k = Some v.
Proof. intros H. rewrite Dict_get_app, H. reflexivity. Qed.

Lemma Dict_get_app_fresh {V} (d : Dict.t V) (k : UUID) (v : V) :
  Dict.get d k = None -> Dict.get (d ++ [(k, v)]) k = Some v.
Proof.
  intros H. rewrite Dict_get_app, H. simpl. rewrite N.eqb_refl. reflexivity.
Qed.

Lemma keyed_app {V} (id : V -> UUID) (d : Dict.t V) (k : UUID) (v : V) :
  keyed id d -> k = id v -> keyed id (d ++ [(k, v)]).
Proof.
  intros Hk E k' v' Hin. apply in_app_or in Hin.
  destruct Hin as [Hin|[Hin|[]]]; [apply Hk; exact Hin|].
  inversion Hin; subst. reflexivity.
Qed.

(** ** What each request does, in full *)

(** A request leaves the stores as they were, and if it is a POST it has
    failed; or it is a POST that appends the entity it returns. *)
Lemma handle_step (env : Env) (r : request) (s : Store) :
  (snd (handle env r s) = s
   /\ (is_POST r = true -> exists e : exn, fst (handle env r s) = Raise e))
  \/ (exists (name : string) (coords : float * float),
         r = POST_organizations name coords
         /\ in_range coords = true
         /\ Dict.get (organizations_db s) (uuid4 env) = None
         /\ let o := Organization.mk name (mkGeoPoint Point coords)
                                     (uuid4 env) in
            handle env r s
            = (Ok (ROrganization o),
               mkStore (organizations_db s ++ [(uuid4 env, o)])
                       (employees_db s) (attendance_db s)))
  \/ (exists (name : string) (organization_id : UUID)
             (organization : Organization.t),
         r = POST_employees name organization_id
         /\ Dict.get (organizations_db s) organization_id = Some organization
         /\ Dict.get (employees_db s) (uuid4 env) = None
         /\ let e := Employee.mk name organization_id (uuid4 env) in
            handle env r s
            = (Ok (REmployee e),
               mkStore (organizations_db s)
                       (employees_db s ++ [(uuid4 env, e)])
                       (attendance_db s)))
  \/ (exists (employee_id : UUID) (coords : float * float)
             (employee : Employee.t) (organization : Organization.t),
         r = POST_attendance_checkin employee_id coords
         /\ in_range coords = true
         /\ Dict.get (employees_db s) employee_id = Some employee
         /\ Dict.get (organizations_db s) (Employee.organization_id employee)
            = Some organization
         /\ PrimFloat.ltb (float_of_int MAX_CHECKIN_DISTANCE_METERS)
              (calculate_distance_meters (mkGeoPoint Point coords)
                 (Organization.location organization)) = false
         /\ Dict.get (attendance_db s) (uuid4 env) = None
         /\ let a :=
              Attendance.mk (Employee.id employee) (mkGeoPoint Point coords)
                (uuid4 env) (utcnow env)
                (Some (Organization.id organization))
                (Some (round_2 (calculate_distance_meters
                                  (mkGeoPoint Point coords)
                                  (Organization.location organization)))) in
            handle env r s
            = (Ok (RAttendance a),
               mkStore (organizations_db s) (employees_db s)
                       (attendance_db s ++ [(uuid4 env, a)]))).
Proof.
  destruct r as [|name coords| |employee_id coords| |employee_id
                 |name organization_id|]; unfold handle.
  - left. split; [reflexivity | discriminate].
  - unfold OrganizationBase_init. rewrite GeoPoint_init_eq.
    destruct (in_range coords) eqn:Hr.
    2:{ left. split; [reflexivity | intros _; eexists; reflexivity]. }
    rewrite (bind_Ok _ _ s s
               (OrganizationBase.mk name (mkGeoPoint Point coords)))
      by reflexivity.
    unfold create_organization, Organization_init.
    cbn [OrganizationBase.location OrganizationBase.name coordinates].
    rewrite GeoPoint_init_eq, Hr.
    unfold bind, lift, read, raise, ret, set_organizations.
    cbn [Organization.id].
    destruct (Dict.contains (organizations_db s) (uuid4 env)) eqn:Hc.
    + left. split; [reflexivity | intros _; eexists; reflexivity].
    + right; left. exists name, coords.
      apply Dict_contains_false in Hc.
      rewrite Dict_set_fresh by exact Hc.
      repeat (split; [assumption || reflexivity|]). reflexivity.
  - left. split; [reflexivity | discriminate].
  - unfold CheckInRequest_init. rewrite GeoPoint_init_eq.
    destruct (in_range coords) eqn:Hr.
    2:{ left. split; [reflexivity | intros _; eexists; reflexivity]. }
    rewrite (bind_Ok _ _ s s
               (CheckInRequest.mk employee_id (mkGeoPoint Point coords)))
      by reflexivity.
    destruct (check_in_cases env
                (CheckInRequest.mk employee_id (mkGeoPoint Point coords)) s)
      as [[e E]|(employee & organization & He & Ho & Hd & Hfresh & E)].
    + left. rewrite (bind_Raise _ _ s s e) by exact E.
      split; [reflexivity | intros _; eexists; reflexivity].
    + right; right; right. cbv zeta in E.
      exists employee_id, coords, employee, organization.
      cbn [CheckInRequest.employee_id CheckInRequest.location] in *.
      repeat (split; [assumption || reflexivity|]).
      cbv zeta. rewrite (bind_Ok _ _ _ _ _ E). reflexivity.
  - left. split; [reflexivity | discriminate].
  - left. split; [|discriminate].
    unfold get_employee, get_employee_or_404, bind, read, ret, raise.
    destruct (Dict.get (employees_db s) employee_id); reflexivity.
  - unfold create_employee, get_organization_or_404, Employee_init,
      bind, read, ret, raise, set_employees.
    cbn [EmployeeBase.organization_id EmployeeBase.name Employee.id].
    destruct (Dict.get (organizations_db s) organization_id)
      as [organization|] eqn:Ho.
    2:{ left. split; [reflexivity | intros _; eexists; reflexivity]. }
    destruct (Dict.contains (employees_db s) (uuid4 env)) eqn:Hc.
    + left. split; [reflexivity | intros _; eexists; reflexivity].
    + right; right; left. exists name, organization_id, organization.
      apply Dict_contains_false in Hc.
      rewrite Dict_set_fresh by exact Hc.
      repeat (split; [assumption || reflexivity|]). reflexivity.
  - left. split; [reflexivity | discriminate].
Qed.

Lemma handle_store_wf (env : Env) (r : request) (s : Store) :
  store_wf s -> store_wf (snd (handle env r s)).
Proof.
  intros (Ko & Ke & Ka & No & Ne & Na & Le & La).
  destruct (handle_step env r s)
    as [[E _]|[(name & coords & _ & Hr & Hf & E)
              |[(name & oid & org & _ & Ho & Hf & E)
               |(eid & coords & employee & organization & _ & Hr & He & Ho
                 & Hd & Hf & E)]]].
  - rewrite E. unfold store_wf. auto 10.
  - cbv zeta in E. rewrite E. cbn [snd].
    unfold store_wf, employees_linked, attendance_linked.
    cbn [organizations_db employees_db attendance_db].
    split; [apply keyed_app; [exact Ko | reflexivity]|].
    split; [exact Ke|]. split; [exact Ka|].
    split; [apply Dict_unique_fresh; assumption|].
    split; [exact Ne|]. split; [exact Na|]. split.
    + intros k e Hin. destruct (Le k e Hin) as [o Ho].
      exists o. apply Dict_get_app_Some. exact Ho.
    + intros k a Hin. destruct (La k a Hin) as (e & o & H1 & H2 & H3 & H4).
      exists e, o. split; [exact H1|].
      split; [apply Dict_get_app_Some; exact H2|]. auto.
  - cbv zeta in E. rewrite E. cbn [snd].
    unfold store_wf, employees_linked, attendance_linked.
    cbn [organizations_db employees_db attendance_db].
    split; [exact Ko|].
    split; [apply keyed_app; [exact Ke | reflexivity]|]. split; [exact Ka|].
    split; [exact No|].
    split; [apply Dict_unique_fresh; assumption|]. split; [exact Na|]. split.
    + intros k e Hin. apply in_app_or in Hin.
      destruct Hin as [Hin|[Hin|[]]]; [exact (Le k e Hin)|].
      inversion Hin; subst. exists org. exact Ho.
    + intros k a Hin. destruct (La k a Hin) as (e & o & H1 & H2 & H3 & H4).
      exists e, o. split; [apply Dict_get_app_Some; exact H1|]. auto.
  - cbv zeta in E. rewrite E. cbn [snd].
    unfold store_wf, employees_linked, attendance_linked.
    cbn [organizations_db employees_db attendance_db].
    split; [exact Ko|]. split; [exact Ke|].
    split; [apply keyed_app; [exact Ka | reflexivity]|].
    split; [exact No|]. split; [exact Ne|].
    split; [apply Dict_unique_fresh; assumption|]. split; [exact Le|].
    intros k a Hin. apply in_app_or in Hin.
    destruct Hin as [Hin|[Hin|[]]]; [exact (La k a Hin)|].
    inversion Hin; subst k a.
    cbn [Attendance.employee_id Attendance.organization_id
         Attendance.distance_meters Attendance.location].
    pose proof (Ke _ _ (Dict_get_In _ _ _ He)) as Eid.
    pose proof (Ko _ _ (Dict_get_In _ _ _ Ho)) as Eoid.
    exists employee, organization.
    split; [rewrite <- Eid; exact He|]. split; [exact Ho|].
    split; [rewrite Eoid; reflexivity | reflexivity].
Qed.

Lemma initial_store_wf : store_wf initial_store.
Proof.
  unfold store_wf, keyed, employees_linked, attendance_linked. simpl.
  repeat split; try constructor; intros; contradiction.
Qed.

Lemma reachable_store_wf (s : Store) : reachable s -> store_wf s.
Proof.
  intros Hs. induction Hs as [|s env r Hs IH].
  - exact initial_store_wf.
  - apply handle_store_wf. exact IH.
Qed.

Lemma run_append_only (reqs : list (Env * request)) :
  forall s : Store,
  exists (lo : Dict.t Organization.t) (le : Dict.t Employee.t)
         (la : Dict.t Attendance.t),
    snd (run reqs s)
    = mkStore (organizations_db s ++ lo) (employees_db s ++ le)
              (attendance_db s ++ la).
Proof.
  induction reqs as [|[env r] reqs IH]; intros s; cbn [run].
  - exists [], [], []. rewrite !app_nil_r. destruct s; reflexivity.
  - destruct (handle_append_only env r s) as (lo & le & la & E).
    destruct (handle env r s) as [res s']. cbn [snd] in E. subst s'.
    destruct (IH (mkStore (organizations_db s ++ lo) (employees_db s ++ le)
                          (attendance_db s ++ la)))
      as (lo' & le' & la' & E').
    destruct (run reqs _) as [rs s'']. cbn [snd] in *. subst s''.
    cbn [organizations_db employees_db attendance_db].
    exists (lo ++ lo'), (le ++ le'), (la ++ la').
    rewrite !app_assoc. reflexivity.
Qed.

(** ** Creating organizations and employees *)

(** X1. Given an organization whose location is within the coordinate
    ranges, and an identifier not yet used for an organization,
    [create_organization] returns the organization made of the given name
    and location and the drawn identifier, appends it to [organizations_db]
    under that identifier and leaves the other stores alone. *)
Theorem create_organization_stores
    (env : Env) (org_data : OrganizationBase.t) (s : Store) :
  valid_pair (coordinates (OrganizationBase.location org_data)) ->
  Dict.contains (organizations_db s) (uuid4 env) = false ->
  let new_org :=
    Organization.mk (OrganizationBase.name org_data)
      (mkGeoPoint Point (coordinates (OrganizationBase.location org_data)))
      (uuid4 env) in
  create_organization env org_data s
  = (Ok new_org,
     mkStore (organizations_db s ++ [(uuid4 env, new_org)])
             (employees_db s) (attendance_db s))
  /\ Dict.get (organizations_db (snd (create_organization env org_data s)))
              (uuid4 env) = Some new_org.
Proof.
  intros Hv Hc new_org. apply in_range_valid in Hv.
  assert (E : create_organization env org_data s
              = (Ok new_org,
                 mkStore (organizations_db s ++ [(uuid4 env, new_org)])
                         (employees_db s) (attendance_db s))).
  { unfold create_organization, Organization_init.
    rewrite GeoPoint_init_eq, Hv.
    unfold bind, lift, read, raise, ret, set_organizations.
    cbn [Organization.id]. rewrite Hc.
    rewrite Dict_set_fresh by (apply Dict_contains_false; exact Hc).
    reflexivity. }
  split; [exact E|]. rewrite E. cbn [snd organizations_db].
  apply Dict_get_app_fresh. apply Dict_contains_false. exact Hc.
Qed.

(** X2. Handed an organization whose location is outside the coordinate
    ranges, [create_organization] raises the validation error of the
    coordinates and stores nothing, whatever identifier is drawn. *)
Theorem create_organization_refuses_out_of_range
    (env : Env) (org_data : OrganizationBase.t) (s : Store) :
  ~ valid_pair (coordinates (OrganizationBase.location org_data)) ->
  exists msg : string,
    create_organization env org_data s
    = (Raise (ValidationError "coordinates" msg), s).
Proof.
  intros Hv.
  destruct (in_range (coordinates (OrganizationBase.location org_data)))
    eqn:E.
  - exfalso. apply Hv. apply in_range_valid. exact E.
  - eexists. unfold create_organization, Organization_init.
    rewrite GeoPoint_init_eq, E. reflexivity.
Qed.

(** X3. When the identifier drawn for a new organization is already a key of
    [organizations_db], [create_organization] raises the 409 exception and
    leaves the stores as they were: the organization filed under that
    identifier is not overwritten. *)
Theorem create_organization_id_conflict
    (env : Env) (org_data : OrganizationBase.t) (s : Store)
    (existing : Organization.t) :
  valid_pair (coordinates (OrganizationBase.location org_data)) ->
  Dict.get (organizations_db s) (uuid4 env) = Some existing ->
  create_organization env org_data s
  = (Raise (HTTPException 409 "Organization ID conflict"), s)
  /\ Dict.get (organizations_db (snd (create_organization env org_data s)))
              (uuid4 env) = Some existing.
Proof.
  intros Hv Hg. apply in_range_valid in Hv.
  assert (E : create_organization env org_data s
              = (Raise (HTTPException 409 "Organization ID conflict"), s)).
  { unfold create_organization, Organization_init.
    rewrite GeoPoint_init_eq, Hv.
    unfold bind, lift, read, raise, ret, Dict.contains.
    cbn [Organization.id]. rewrite Hg. reflexivity. }
  split; [exact E | rewrite E; exact Hg].
Qed.

(** X4. When the organization exists but the identifier drawn for the new
    employee is already a key of [employees_db], [create_employee] raises the
    409 exception and leaves the stores as they were: the employee filed
    under that identifier is not overwritten. *)
Theorem create_employee_id_conflict
    (env : Env) (employee_data : EmployeeBase.t) (s : Store)
    (organization : Organization.t) (existing : Employee.t) :
  Dict.get (organizations_db s) (EmployeeBase.organization_id employee_data)
  = Some organization ->
  Dict.get (employees_db s) (uuid4 env) = Some existing ->
  create_employee env employee_data s
  = (Raise (HTTPException 409 "Employee ID conflict"), s)
  /\ Dict.get (employees_db (snd (create_employee env employee_data s)))
              (uuid4 env) = Some existing.
Proof.
  intros Ho Hg.
  assert (E : create_employee env employee_data s
              = (Raise (HTTPException 409 "Employee ID conflict"), s)).
  { run_handler. rewrite Ho. cbv beta iota zeta.
    unfold Employee_init, Dict.contains. cbn [Employee.id].
    rewrite Hg. reflexivity. }
  split; [exact E | rewrite E; exact Hg].
Qed.

(** ** The other failures of a check-in *)

(** X6. When the employee is found but the organization the employee names
    is not a key of [organizations_db], [check_in] raises the 404 exception
    naming that organization id and leaves the stores as they were. *)
Theorem check_in_unknown_organization
    (env : Env) (check_in_data : CheckInRequest.t) (s : Store)
    (employee : Employee.t) :
  Dict.get (employees_db s) (CheckInRequest.employee_id check_in_data)
  = Some employee ->
  Dict.get (organizations_db s) (Employee.organization_id employee) = None ->
  check_in env check_in_data s
  = (Raise (HTTPException 404
       ("Organization with id "
        ++ str_UUID (Employee.organization_id employee)
        ++ " not found")%string), s).
Proof.
  intros He Ho. run_handler. rewrite He. cbv beta iota. rewrite Ho.
  reflexivity.
Qed.

(** X7. Whenever [check_in] raises, the exception is an [HTTPException]
    with status 404, 400 or 409, and the stores are as they were. *)
Theorem check_in_failures
    (env : Env) (check_in_data : CheckInRequest.t) (s s' : Store) (e : exn) :
  check_in env check_in_data s = (Raise e, s') ->
  s' = s
  /\ exists detail : string,
       e = HTTPException 404 detail \/ e = HTTPException 400 detail
       \/ e = HTTPException 409 detail.
Proof.
  intros H.
  destruct (Dict.get (employees_db s)
              (CheckInRequest.employee_id check_in_data))
    as [employee|] eqn:He.
  2:{ revert H. run_handler. rewrite He. intros H. inversion H.
      split; [reflexivity|]. eexists. left. reflexivity. }
  destruct (Dict.get (organizations_db s)
              (Employee.organization_id employee))
    as [organization|] eqn:Ho.
  2:{ revert H. run_handler. rewrite He. cbv beta iota. rewrite Ho.
      intros H. inversion H.
      split; [reflexivity|]. eexists. left. reflexivity. }
  pose proof (check_in_resolved env check_in_data s employee organization
                He Ho) as E.
  cbv zeta in E. rewrite E in H.
  destruct (PrimFloat.ltb (float_of_int MAX_CHECKIN_DISTANCE_METERS)
              (calculate_distance_meters
                 (CheckInRequest.location check_in_data)
                 (Organization.location organization))).
  { inversion H. split; [reflexivity|]. eexists. right; left. reflexivity. }
  destruct (Dict.contains (attendance_db s) (uuid4 env)).
  { inversion H. split; [reflexivity|]. eexists. right; right. reflexivity. }
  discriminate.
Qed.

(** ** Requests and the stores *)

(** X8. A request that fails leaves the three stores as they were, and so
    does every GET request, whether it fails or not. *)
Theorem handle_failure_or_GET_unchanged
    (env : Env) (r : request) (s : Store) :
  (forall (e : exn) (s' : Store), handle env r s = (Raise e, s') -> s' = s)
  /\ (is_POST r = false -> snd (handle env r s) = s).
Proof.
  destruct (handle_step env r s)
    as [[E _]|[(name & coords & Er & _ & _ & E)
              |[(name & oid & org & Er & _ & _ & E)
               |(eid & coords & employee & organization & Er & _ & _ & _
                 & _ & _ & E)]]].
  - split.
    + intros e s' H. rewrite H in E. exact E.
    + intros _. exact E.
  - cbv zeta in E. rewrite E. subst r. split; [|discriminate].
    intros e s' H. discriminate.
  - cbv zeta in E. rewrite E. subst r. split; [|discriminate].
    intros e s' H. discriminate.
  - cbv zeta in E. rewrite E. subst r. split; [|discriminate].
    intros e s' H. discriminate.
Qed.

(** X9. Each collection is written by one endpoint only: a request other
    than [POST /organizations] leaves [organizations_db] as it was, one other
    than [POST /employees] leaves [employees_db] as it was, and one other
    than [POST /attendance/checkin] leaves [attendance_db] as it was. *)
Theorem handle_frame (env : Env) (r : request) (s : Store) :
  ((forall name coords, r <> POST_organizations name coords) ->
   organizations_db (snd (handle env r s)) = organizations_db s)
  /\ ((forall name organization_id,
          r <> POST_employees name organization_id) ->
      employees_db (snd (handle env r s)) = employees_db s)
  /\ ((forall employee_id coords,
          r <> POST_attendance_checkin employee_id coords) ->
      attendance_db (snd (handle env r s)) = attendance_db s).
Proof.
  destruct (handle_step env r s)
    as [[E _]|[(name & coords & Er & _ & _ & E)
              |[(name & oid & org & Er & _ & _ & E)
               |(eid & coords & employee & organization & Er & _ & _ & _
                 & _ & _ & E)]]];
    try (cbv zeta in E); rewrite E; cbn [snd];
    (split; [|split]); intros H; try reflexivity;
    exfalso; eapply H; exact Er.
Qed.

(** ** What holds in every store the process can reach *)

Lemma keyed_ids {V} (id : V -> UUID) (d : Dict.t V) :
  keyed id d -> map id (Dict.values d) = map fst d.
Proof.
  unfold Dict.values. induction d as [|[k v] d IH]; intros Hk; simpl.
  - reflexivity.
  - rewrite IH by (intros k' v' Hin; apply Hk; right; exact Hin).
    rewrite (Hk k v) by (left; reflexivity). reflexivity.
Qed.

Lemma In_values {V} (d : Dict.t V) (v : V) :
  In v (Dict.values d) -> exists k : UUID, In (k, v) d.
Proof.
  unfold Dict.values. intros H. apply in_map_iff in H.
  destruct H as ([k v'] & E & Hin). simpl in E. subst v'. eauto.
Qed.

(** X10. In every reachable store the listed organizations have pairwise
    different ids, and so have the listed employees and the listed attendance
    records; and whatever is found under a key carries that key as its id. *)
Theorem reachable_ids_unique (s : Store) :
  reachable s ->
  NoDup (map Organization.id (Dict.values (organizations_db s)))
  /\ NoDup (map Employee.id (Dict.values (employees_db s)))
  /\ NoDup (map Attendance.id (Dict.values (attendance_db s)))
  /\ (forall k o, Dict.get (organizations_db s) k = Some o ->
                  Organization.id o = k)
  /\ (forall k e, Dict.get (employees_db s) k = Some e -> Employee.id e = k)
  /\ (forall k a, Dict.get (attendance_db s) k = Some a ->
                  Attendance.id a = k).
Proof.
  intros Hs. apply reachable_store_wf in Hs.
  destruct Hs as (Ko & Ke & Ka & No & Ne & Na & _ & _).
  rewrite (keyed_ids _ _ Ko), (keyed_ids _ _ Ke), (keyed_ids _ _ Ka).
  repeat (split; [assumption|]).
  split; [|split]; intros k v Hg; symmetry;
    [apply Ko | apply Ke | apply Ka]; apply Dict_get_In; exact Hg.
Qed.

(** X11. In every reachable store each employee belongs to a stored
    organization, so a check-in of a stored employee never raises the 404
    exception: the organization lookup of [check_in] cannot fail. *)
Theorem reachable_check_in_finds_organization
    (s : Store) (env : Env) (check_in_data : CheckInRequest.t)
    (employee : Employee.t) :
  reachable s ->
  Dict.get (employees_db s) (CheckInRequest.employee_id check_in_data)
  = Some employee ->
  (exists organization : Organization.t,
      Dict.get (organizations_db s) (Employee.organization_id employee)
      = Some organization)
  /\ forall (detail : string) (s' : Store),
       check_in env check_in_data s <> (Raise (HTTPException 404 detail), s').
Proof.
  intros Hs He. apply reachable_store_wf in Hs.
  destruct Hs as (_ & _ & _ & _ & _ & _ & Le & _).
  destruct (Le _ _ (Dict_get_In _ _ _ He)) as [organization Ho].
  split; [exists organization; exact Ho|].
  intros detail s'.
  rewrite (check_in_resolved env check_in_data s employee organization He Ho).
  cbv zeta.
  destruct (PrimFloat.ltb (float_of_int MAX_CHECKIN_DISTANCE_METERS)
              (calculate_distance_meters
                 (CheckInRequest.location check_in_data)
                 (Organization.location organization)));
    [discriminate|].
  destruct (Dict.contains (attendance_db s) (uuid4 env)); discriminate.
Qed.

(** X12. In every reachable store each listed attendance record is that of
    a stored employee, names the organization this employee belongs to, which
    is stored too, and carries the 2-place rounding of the distance between
    its own location and the location of that organization. *)
Theorem reachable_attendance_linked (s : Store) (a : Attendance.t) :
  reachable s ->
  In a (Dict.values (attendance_db s)) ->
  exists (e : Employee.t) (o : Organization.t),
    Dict.get (employees_db s) (Attendance.employee_id a) = Some e
    /\ Employee.id e = Attendance.employee_id a
    /\ Dict.get (organizations_db s) (Employee.organization_id e) = Some o
    /\ Attendance.organization_id a = Some (Organization.id o)
    /\ Attendance.distance_meters a
       = Some (round_2 (calculate_distance_meters
                          (Attendance.location a)
                          (Organization.location o))).
Proof.
  intros Hs Hin. apply reachable_store_wf in Hs.
  destruct Hs as (Ko & Ke & _ & _ & _ & _ & _ & La).
  apply In_values in Hin. destruct Hin as [k Hin].
  destruct (La k a Hin) as (e & o & H1 & H2 & H3 & H4).
  exists e, o. split; [exact H1|].
  split; [symmetry; apply Ke; apply Dict_get_In; exact H1|].
  split; [exact H2|]. split; [|exact H4].
  rewrite H3. f_equal. apply Ko. apply Dict_get_In. exact H2.
Qed.

(** X13. In a reachable store [get_employee] returns an employee exactly
    when one with the requested id is listed, and then returns that one;
    otherwise it raises the 404 exception naming the id.  It never changes
    the stores. *)
Theorem reachable_get_employee (s : Store) (employee_id : UUID) :
  reachable s ->
  (exists employee : Employee.t,
      get_employee employee_id s = (Ok employee, s)
      /\ Employee.id employee = employee_id
      /\ In employee (Dict.values (employees_db s)))
  \/ (get_employee employee_id s
      = (Raise (HTTPException 404
           ("Employee with id " ++ str_UUID employee_id
            ++ " not found")%string), s)
      /\ forall employee : Employee.t,
           In employee (Dict.values (employees_db s)) ->
           Employee.id employee <> employee_id).
Proof.
  intros Hs. apply reachable_store_wf in Hs.
  destruct Hs as (_ & Ke & _ & _ & _ & _ & _ & _).
  destruct (Dict.get (employees_db s) employee_id) as [employee|] eqn:Hg.
  - left. exists employee. split.
    + run_handler. rewrite Hg. reflexivity.
    + pose proof (Dict_get_In _ _ _ Hg) as Hin. split.
      * symmetry. apply Ke. exact Hin.
      * unfold Dict.values. apply in_map_iff.
        exists (employee_id, employee). auto.
  - right. split.
    + run_handler. rewrite Hg. reflexivity.
    + intros employee Hin E. apply In_values in Hin. destruct Hin as [k Hin].
      pose proof (Ke _ _ Hin) as Ek.
      apply Dict_get_None_keys in Hg. apply Hg.
      apply in_map_iff. exists (k, employee). split; [|exact Hin].
      simpl. congruence.
Qed.

(** ** How the operations compose *)

Lemma create_employee_Ok
    (env : Env) (employee_data : EmployeeBase.t) (s s' : Store)
    (e : Employee.t) :
  create_employee env employee_data s = (Ok e, s') ->
  e = Employee.mk (EmployeeBase.name employee_data)
                  (EmployeeBase.organization_id employee_data) (uuid4 env)
  /\ Dict.get (employees_db s) (uuid4 env) = None
  /\ s' = mkStore (organizations_db s)
                  (employees_db s ++ [(uuid4 env, e)]) (attendance_db s).
Proof.
  run_handler.
  destruct (Dict.get (organizations_db s)
              (EmployeeBase.organization_id employee_data));
    [|discriminate].
  cbv beta iota zeta. unfold Employee_init. cbn [Employee.id].
  destruct (Dict.contains (employees_db s) (uuid4 env)) eqn:Hc;
    [discriminate|].
  apply Dict_contains_false in Hc.
  rewrite Dict_set_fresh by exact Hc.
  intros H. inversion H; subst. auto.
Qed.

(** X14. An employee, once created, stays retrievable unchanged: after any
    further requests [get_employee] on the returned id returns the employee
    that [create_employee] returned. *)
Theorem created_employee_persists
    (env : Env) (employee_data : EmployeeBase.t) (s s1 : Store)
    (e : Employee.t) (reqs : list (Env * request)) :
  create_employee env employee_data s = (Ok e, s1) ->
  get_employee (Employee.id e) (snd (run reqs s1))
  = (Ok e, snd (run reqs s1)).
Proof.
  intros H. apply create_employee_Ok in H. destruct H as (Ee & Hf & Es).
  destruct (run_append_only reqs s1) as (lo & le & la & E).
  rewrite E. subst s1. cbn [organizations_db employees_db attendance_db].
  run_handler. cbn [employees_db].
  assert (Ei : Employee.id e = uuid4 env) by (subst e; reflexivity).
  rewrite Ei.
  rewrite (Dict_get_app_Some _ le _ e (Dict_get_app_fresh _ _ e Hf)).
  reflexivity.
Qed.

(** X15. An organization, once created, can be joined at any later time:
    after any further requests, [create_employee] naming the returned id
    does not raise the 404 exception but, when the drawn identifier is not
    yet used for an employee, returns the new employee of that
    organization. *)
Theorem created_organization_accepts_employees
    (env : Env) (org_data : OrganizationBase.t) (s s1 : Store)
    (o : Organization.t) (reqs : list (Env * request))
    (env' : Env) (name : string) :
  create_organization env org_data s = (Ok o, s1) ->
  Dict.contains (employees_db (snd (run reqs s1))) (uuid4 env') = false ->
  Dict.get (organizations_db (snd (run reqs s1))) (Organization.id o)
  = Some o
  /\ fst (create_employee env' (EmployeeBase.mk name (Organization.id o))
            (snd (run reqs s1)))
     = Ok (Employee.mk name (Organization.id o) (uuid4 env')).
Proof.
  intros H Hc. apply create_organization_Ok in H.
  destruct H as (Es & Hf & _).
  assert (Hg : Dict.get (organizations_db (snd (run reqs s1)))
                        (Organization.id o) = Some o).
  { destruct (run_append_only reqs s1) as (lo & le & la & E).
    rewrite E. subst s1. cbn [organizations_db].
    apply Dict_get_app_Some. apply Dict_get_app_fresh. exact Hf. }
  split; [exact Hg|].
  run_handler. cbn [EmployeeBase.organization_id]. rewrite Hg.
  cbv beta iota zeta. unfold Employee_init.
  cbn [Employee.id EmployeeBase.name EmployeeBase.organization_id].
  rewrite Hc. reflexivity.
Qed.

(** X16. The whole path: an organization is created, then an employee of
    it, then any requests are handled.  A check-in of that employee is then
    decided by the distance to the organization's location alone: beyond the
    threshold it raises the 400 exception; otherwise, the drawn identifier
    being unused, it returns a record for that employee and organization. *)
Theorem check_in_after_registration
    (env1 env2 env : Env) (org_data : OrganizationBase.t) (name : string)
    (s s1 s2 : Store) (o : Organization.t) (e : Employee.t)
    (reqs : list (Env * request)) (location : GeoPoint) :
  create_organization env1 org_data s = (Ok o, s1) ->
  create_employee env2 (EmployeeBase.mk name (Organization.id o)) s1
  = (Ok e, s2) ->
  Dict.contains (attendance_db (snd (run reqs s2))) (uuid4 env) = false ->
  fst (check_in env (CheckInRequest.mk (Employee.id e) location)
         (snd (run reqs s2)))
  = if PrimFloat.ltb (float_of_int MAX_CHECKIN_DISTANCE_METERS)
         (calculate_distance_meters location (Organization.location o))
    then Raise (HTTPException 400
                  (too_far_detail
                     (calculate_distance_meters location
                        (Organization.location o))))
    else Ok (Attendance.mk (Employee.id e) location (uuid4 env) (utcnow env)
               (Some (Organization.id o))
               (Some (round_2 (calculate_distance_meters location
                                 (Organization.location o))))).
Proof.
  intros Ho He Hc.
  apply create_organization_Ok in Ho. destruct Ho as (Es1 & Hfo & _).
  apply create_employee_Ok in He. destruct He as (Ee & Hfe & Es2).
  cbn [EmployeeBase.name EmployeeBase.organization_id] in Ee.
  destruct (run_append_only reqs s2) as (lo & le & la & E).
  assert (Ge : Dict.get (employees_db (snd (run reqs s2))) (Employee.id e)
               = Some e).
  { rewrite E. subst s2. cbn [employees_db].
    replace (Employee.id e) with (uuid4 env2) by (subst e; reflexivity).
    apply Dict_get_app_Some. apply Dict_get_app_fresh. exact Hfe. }
  assert (Go : Dict.get (organizations_db (snd (run reqs s2)))
                        (Employee.organization_id e) = Some o).
  { rewrite E. subst s2 s1. cbn [organizations_db].
    replace (Employee.organization_id e) with (Organization.id o)
      by (subst e; reflexivity).
    apply Dict_get_app_Some. apply Dict_get_app_fresh. exact Hfo. }
  rewrite (check_in_resolved env (CheckInRequest.mk (Employee.id e) location)
             (snd (run reqs s2)) e o Ge Go).
  cbv zeta. cbn [CheckInRequest.location].
  destruct (PrimFloat.ltb (float_of_int MAX_CHECKIN_DISTANCE_METERS)
              (calculate_distance_meters location (Organization.location o)));
    [reflexivity|].
  rewrite Hc. reflexivity.
Qed.

(** ** The other listings *)

Lemma run_employees (reqs : list (Env * request)) :
  forall s : Store,
    Dict.values (employees_db (snd (run reqs s)))
    = Dict.values (employees_db s)
      ++ created_employees reqs (fst (run reqs s)).
Proof.
  induction reqs as [|[env r] reqs IH]; intros s; cbn [run].
  - cbn [fst snd created_employees]. rewrite app_nil_r. reflexivity.
  - specialize (IH (snd (handle env r s))).
    destruct (handle_step env r s)
      as [[E Hp]|[(name & coords & Er & _ & _ & E)
                 |[(name & oid & org & Er & _ & _ & E)
                  |(eid & coords & employee & organization & Er & _ & _ & _
                    & _ & _ & E)]]];
      try (cbv zeta in E).
    + destruct (handle env r s) as [res s'] eqn:Eh. cbn [fst snd] in *.
      subst s'. destruct (run reqs s) as [rs s''] eqn:Er'.
      cbn [fst snd] in *. rewrite IH. f_equal.
      destruct r; try reflexivity;
        try (destruct res as [[ | | | | | | ]|]; reflexivity).
      destruct (Hp eq_refl) as [e Ee]. subst res. reflexivity.
    + rewrite E in *. cbn [fst snd employees_db] in *.
      destruct (run reqs _) as [rs s''] eqn:Er'. cbn [fst snd] in *.
      rewrite IH. subst r. reflexivity.
    + rewrite E in *. cbn [fst snd employees_db] in *.
      destruct (run reqs _) as [rs s''] eqn:Er'. cbn [fst snd] in *.
      rewrite IH. subst r. cbn [created_employees].
      rewrite Dict_values_app, <- app_assoc. reflexivity.
    + rewrite E in *. cbn [fst snd employees_db] in *.
      destruct (run reqs _) as [rs s''] eqn:Er'. cbn [fst snd] in *.
      rewrite IH. subst r. reflexivity.
Qed.

Lemma run_attendance (reqs : list (Env * request)) :
  forall s : Store,
    Dict.values (attendance_db (snd (run reqs s)))
    = Dict.values (attendance_db s)
      ++ recorded_attendance (fst (run reqs s)).
Proof.
  induction reqs as [|[env r] reqs IH]; intros s; cbn [run].
  - cbn [fst snd recorded_attendance]. rewrite app_nil_r. reflexivity.
  - specialize (IH (snd (handle env r s))).
    destruct (handle_step env r s)
      as [[E Hp]|[(name & coords & Er & _ & _ & E)
                 |[(name & oid & org & Er & _ & _ & E)
                  |(eid & coords & employee & organization & Er & _ & _ & _
                    & _ & _ & E)]]];
      try (cbv zeta in E).
    + destruct (handle env r s) as [res s'] eqn:Eh. cbn [fst snd] in *.
      subst s'. destruct (run reqs s) as [rs s''] eqn:Er'.
      cbn [fst snd] in *. rewrite IH. f_equal.
      destruct res as [[ | | |a| | | ]|]; try reflexivity.
      exfalso. destruct r; unfold handle in Eh;
        try (revert Eh; run_handler; discriminate).
      * revert Eh. unfold OrganizationBase_init, bind, lift.
        destruct (GeoPoint_init coords); [|discriminate].
        destruct (create_organization env _ s) as [[?|?] ?]; discriminate.
      * destruct (Hp eq_refl) as [e Ee]. discriminate.
      * revert Eh. unfold get_employee, bind.
        destruct (get_employee_or_404 employee_id s) as [[?|?] ?];
          discriminate.
      * destruct (Hp eq_refl) as [e Ee]. discriminate.
    + rewrite E in *. cbn [fst snd attendance_db] in *.
      destruct (run reqs _) as [rs s''] eqn:Er'. cbn [fst snd] in *.
      rewrite IH. reflexivity.
    + rewrite E in *. cbn [fst snd attendance_db] in *.
      destruct (run reqs _) as [rs s''] eqn:Er'. cbn [fst snd] in *.
      rewrite IH. reflexivity.
    + rewrite E in *. cbn [fst snd attendance_db] in *.
      destruct (run reqs _) as [rs s''] eqn:Er'. cbn [fst snd] in *.
      rewrite IH. cbn [recorded_attendance].
      rewrite Dict_values_app, <- app_assoc. reflexivity.
Qed.

(** X17. [list_employees] returns the employees in the order of their
    creation: after any sequence of requests on the empty stores it returns
    the employees that the successful [POST /employees] requests returned, in
    that order, and it leaves the stores as they are. *)
Theorem list_employees_insertion_order (reqs : list (Env * request)) :
  list_employees (snd (run reqs initial_store))
  = (Ok (created_employees reqs (fst (run reqs initial_store))),
     snd (run reqs initial_store)).
Proof.
  pose proof (run_employees reqs initial_store) as H.
  cbn [initial_store employees_db Dict.values Dict.empty map app] in H.
  run_handler. rewrite H. reflexivity.
Qed.

(** X18. [list_attendance] returns the attendance records in the order of
    the check-ins: after any sequence of requests on the empty stores it
    returns the records that the successful check-ins returned, in that
    order, and it leaves the stores as they are. *)
Theorem list_attendance_insertion_order (reqs : list (Env * request)) :
  list_attendance (snd (run reqs initial_store))
  = (Ok (recorded_attendance (fst (run reqs initial_store))),
     snd (run reqs initial_store)).
Proof.
  pose proof (run_attendance reqs initial_store) as H.
  cbn [initial_store attendance_db Dict.values Dict.empty map app] in H.
  run_handler. rewrite H. reflexivity.
Qed.

(** ** Which coordinate the validator reports *)

(** X19. The validator tests the longitude first: a longitude that is not a
    number within [-180, 180] is reported whatever the latitude is, and the
    latitude is reported only when the longitude is fine.  A NaN or an
    infinity is never accepted, in either position. *)
Theorem validate_coordinates_report (longitude latitude : float) :
  (~ value_within (-180) 180 longitude ->
   validate_coordinates (longitude, latitude)
   = Raise (ValueError "Longitude must be between -180 and 180"))
  /\ (value_within (-180) 180 longitude ->
      ~ value_within (-90) 90 latitude ->
      validate_coordinates (longitude, latitude)
      = Raise (ValueError "Latitude must be between -90 and 90"))
  /\ (float_units longitude = None \/ float_units latitude = None ->
      exists msg : string,
        validate_coordinates (longitude, latitude) = Raise (ValueError msg)).
Proof.
  assert (W180 : within (-180) 180 longitude = true
                 <-> value_within (-180) 180 longitude)
    by (apply within_value; vm_compute; reflexivity).
  assert (W90 : within (-90) 90 latitude = true
                <-> value_within (-90) 90 latitude)
    by (apply within_value; vm_compute; reflexivity).
  unfold validate_coordinates.
  fold (within (-180) 180 longitude). fold (within (-90) 90 latitude).
  split; [|split].
  - intros H. destruct (within (-180) 180 longitude); [|reflexivity].
    exfalso. apply H. apply W180. reflexivity.
  - intros H1 H2. apply W180 in H1. rewrite H1. cbn [negb].
    destruct (within (-90) 90 latitude); [|reflexivity].
    exfalso. apply H2. apply W90. reflexivity.
  - intros H.
    destruct (within (-180) 180 longitude) eqn:E1; cbn [negb];
      [|eexists; reflexivity].
    destruct (within (-90) 90 latitude) eqn:E2; cbn [negb];
      [|eexists; reflexivity].
    exfalso.
    destruct (proj1 W180 eq_refl) as (u1 & U1 & _).
    destruct (proj1 W90 eq_refl) as (u2 & U2 & _).
    destruct H as [H|H]; congruence.
Qed.

End App.

(** ** The handlers on concrete requests *)

Local Abbreviation flat := Instance.flat_meters.
Local Abbreviation round2 := Instance.round_2.
Local Abbreviation fmt := Instance.format_2f.

(** The coordinate examples: longitude 200 and latitude -95 are refused,
    (-73.99, 40.73) is accepted; so are the corners of the range, and a NaN
    is refused. *)
Example GeoPoint_longitude_200 :
  GeoPoint_init (200%float, 0%float)
  = Raise (ValidationError "coordinates"
             "Longitude must be between -180 and 180").
Proof. vm_compute. reflexivity. Qed.

Example GeoPoint_latitude_minus_95 :
  GeoPoint_init (0%float, (-95)%float)
  = Raise (ValidationError "coordinates"
             "Latitude must be between -90 and 90").
Proof. vm_compute. reflexivity. Qed.

Example GeoPoint_new_york :
  GeoPoint_init ((-73.99)%float, 40.73%float)
  = Ok (mkGeoPoint Point ((-73.99)%float, 40.73%float)).
Proof. vm_compute. reflexivity. Qed.

Example GeoPoint_corner :
  GeoPoint_init ((-180)%float, 90%float)
  = Ok (mkGeoPoint Point ((-180)%float, 90%float)).
Proof. vm_compute. reflexivity. Qed.

Example GeoPoint_nan :
  GeoPoint_init (nan, 0%float)
  = Raise (ValidationError "coordinates"
             "Longitude must be between -180 and 180").
Proof. vm_compute. reflexivity. Qed.

(** One is 2^1074 units, a half 2^1073, and the infinities have no value. *)
Example float_units_one : float_units 1%float = Some (2 ^ 1074)%Z.
Proof. vm_compute. reflexivity. Qed.

Example float_units_half : float_units 0.5%float = Some (2 ^ 1073)%Z.
Proof. vm_compute. reflexivity. Qed.

Example float_units_minus_180 :
  float_units (float_of_int (-180)) = Some (-180 * 2 ^ 1074)%Z.
Proof. vm_compute. reflexivity. Qed.

Example float_units_infinity : float_units infinity = None.
Proof. vm_compute. reflexivity. Qed.

(** The three requests of [Fixture.session] succeed and leave
    [Fixture.store1]. *)
Example session_runs :
  run flat round2 fmt Fixture.session initial_store
  = ([Ok (ROrganization Fixture.org0); Ok (REmployee Fixture.emp0);
      Ok (RAttendance Fixture.att3)], Fixture.store1).
Proof. vm_compute. reflexivity. Qed.

(** A check-in about 5560 m away is refused with the distance and the
    threshold in the detail. *)
Example check_in_far_runs :
  check_in flat round2 fmt Fixture.env4
    (CheckInRequest.mk 2%N (mkGeoPoint Point Fixture.far)) Fixture.store1
  = (Raise (HTTPException 400
       "Check-in location is too far from the organization. Distance: 5559.75m, Allowed: 1000m"),
     Fixture.store1).
Proof. vm_compute. reflexivity. Qed.

Lemma check_in_unknown_employee_witness :
  Dict.get (employees_db Fixture.store0) 7%N = None
  /\ check_in flat round2 fmt Fixture.env3
       (CheckInRequest.mk 7%N (mkGeoPoint Point Fixture.near)) Fixture.store0
     = (Raise (HTTPException 404
          "Employee with id 00000000-0000-0000-0000-000000000007 not found"),
        Fixture.store0).
Proof.
  split; [reflexivity|].
  apply (check_in_unknown_employee flat round2 fmt Fixture.env3
           (CheckInRequest.mk 7%N (mkGeoPoint Point Fixture.near))
           Fixture.store0).
  reflexivity.
Defined.

Lemma check_in_too_far_witness :
  PrimFloat.ltb (float_of_int MAX_CHECKIN_DISTANCE_METERS)
    (calculate_distance_meters flat (mkGeoPoint Point Fixture.far)
       (Organization.location Fixture.org0)) = true
  /\ check_in flat round2 fmt Fixture.env4
       (CheckInRequest.mk 2%N (mkGeoPoint Point Fixture.far)) Fixture.store1
     = (Raise (HTTPException 400
          ("Check-in location is too far from the organization. Distance: "
           ++ fmt (calculate_distance_meters flat
                     (mkGeoPoint Point Fixture.far)
                     (Organization.location Fixture.org0))
           ++ "m, Allowed: 1000m")%string), Fixture.store1).
Proof.
  split; [reflexivity|].
  apply (check_in_too_far flat round2 fmt Fixture.env4
           (CheckInRequest.mk 2%N (mkGeoPoint Point Fixture.far))
           Fixture.store1 Fixture.emp0 Fixture.org0);
    reflexivity.
Defined.

Lemma check_in_accepted_witness :
  Dict.contains (attendance_db Fixture.store1) (uuid4 Fixture.env4) = false
  /\ exists attendance_record : Attendance.t,
       check_in flat round2 fmt Fixture.env4
         (CheckInRequest.mk 2%N (mkGeoPoint Point Fixture.near)) Fixture.store1
       = (Ok attendance_record,
          mkStore (organizations_db Fixture.store1)
                  (employees_db Fixture.store1)
                  (attendance_db Fixture.store1
                   ++ [(Attendance.id attendance_record, attendance_record)]))
       /\ Attendance.distance_meters attendance_record = Some 555.98%float.
Proof.
  split; [reflexivity|].
  destruct (check_in_accepted flat round2 fmt Fixture.env4
              (CheckInRequest.mk 2%N (mkGeoPoint Point Fixture.near))
              Fixture.store1 Fixture.emp0 Fixture.org0
              eq_refl eq_refl eq_refl eq_refl)
    as (a & E & Hd & _).
  exists a. split; [exact E|]. rewrite Hd. vm_compute. reflexivity.
Defined.

(** The acceptable check-in of [Fixture.session], sent again when the same
    identifier is drawn: the employee and the organization resolve, the
    distance is below the threshold, and [check_in] raises the 409 exception
    and stores no record. *)
Lemma check_in_accepted_counterexample :
  snd (run flat round2 fmt Fixture.session initial_store) = Fixture.store1
  /\ Dict.get (employees_db Fixture.store1) 2%N = Some Fixture.emp0
  /\ Dict.get (organizations_db Fixture.store1)
              (Employee.organization_id Fixture.emp0) = Some Fixture.org0
  /\ PrimFloat.ltb (float_of_int MAX_CHECKIN_DISTANCE_METERS)
       (calculate_distance_meters flat (mkGeoPoint Point Fixture.near)
          (Organization.location Fixture.org0)) = false
  /\ check_in flat round2 fmt Fixture.env3
       (CheckInRequest.mk 2%N (mkGeoPoint Point Fixture.near)) Fixture.store1
     = (Raise (HTTPException 409 "Attendance record ID conflict"),
        Fixture.store1)
  /\ (forall (a : Attendance.t) (s' : Store),
         check_in flat round2 fmt Fixture.env3
           (CheckInRequest.mk 2%N (mkGeoPoint Point Fixture.near))
           Fixture.store1
         <> (Ok a, s')).
Proof.
  assert (E : check_in flat round2 fmt Fixture.env3
                (CheckInRequest.mk 2%N (mkGeoPoint Point Fixture.near))
                Fixture.store1
              = (Raise (HTTPException 409 "Attendance record ID conflict"),
                 Fixture.store1))
    by (vm_compute; reflexivity).
  repeat (split; [vm_compute; reflexivity|]).
  intros a s'. rewrite E. discriminate.
Qed.

Lemma check_in_threshold_strict_witness :
  (exists attendance_record : Attendance.t,
      check_in Fixture.always_1000 round2 fmt Fixture.env3
        (CheckInRequest.mk 2%N (mkGeoPoint Point Fixture.near)) Fixture.store0
      = (Ok attendance_record,
         mkStore (organizations_db Fixture.store0)
                 (employees_db Fixture.store0)
                 (attendance_db Fixture.store0
                  ++ [(uuid4 Fixture.env3, attendance_record)])))
  /\ (exists (employee : Employee.t) (organization : Organization.t),
         Dict.get (employees_db Fixture.store1) 2%N = Some employee
         /\ Dict.get (organizations_db Fixture.store1)
                     (Employee.organization_id employee) = Some organization
         /\ PrimFloat.ltb (float_of_int MAX_CHECKIN_DISTANCE_METERS)
              (calculate_distance_meters flat (mkGeoPoint Point Fixture.far)
                 (Organization.location organization)) = true).
Proof.
  split.
  - apply (proj1 (check_in_threshold_strict Fixture.always_1000 round2 fmt
                    Fixture.env3
                    (CheckInRequest.mk 2%N (mkGeoPoint Point Fixture.near))
                    Fixture.store0)
             Fixture.emp0 Fixture.org0);
      reflexivity.
  - apply (proj2 (check_in_threshold_strict flat round2 fmt Fixture.env4
                    (CheckInRequest.mk 2%N (mkGeoPoint Point Fixture.far))
                    Fixture.store1)
             "Check-in location is too far from the organization. Distance: 5559.75m, Allowed: 1000m"%string
             Fixture.store1).
    vm_compute. reflexivity.
Defined.

(** A check-in at a distance equal to the threshold, sent after the requests
    of [Fixture.session] and handled when the identifier drawn is that of the
    stored record: the employee and the organization resolve, the distance is
    exactly 1000, and [check_in] raises the 409 exception and returns no
    record. *)
Lemma check_in_threshold_counterexample :
  snd (run Fixture.always_1000 round2 fmt Fixture.session initial_store)
  = Fixture.store1_1000
  /\ Dict.get (employees_db Fixture.store1_1000) 2%N = Some Fixture.emp0
  /\ Dict.get (organizations_db Fixture.store1_1000)
              (Employee.organization_id Fixture.emp0) = Some Fixture.org0
  /\ calculate_distance_meters Fixture.always_1000
       (mkGeoPoint Point Fixture.near) (Organization.location Fixture.org0)
     = float_of_int MAX_CHECKIN_DISTANCE_METERS
  /\ check_in Fixture.always_1000 round2 fmt Fixture.env3
       (CheckInRequest.mk 2%N (mkGeoPoint Point Fixture.near))
       Fixture.store1_1000
     = (Raise (HTTPException 409 "Attendance record ID conflict"),
        Fixture.store1_1000)
  /\ (forall (a : Attendance.t) (s' : Store),
         check_in Fixture.always_1000 round2 fmt Fixture.env3
           (CheckInRequest.mk 2%N (mkGeoPoint Point Fixture.near))
           Fixture.store1_1000
         <> (Ok a, s')).
Proof.
  assert (E : check_in Fixture.always_1000 round2 fmt Fixture.env3
                (CheckInRequest.mk 2%N (mkGeoPoint Point Fixture.near))
                Fixture.store1_1000
              = (Raise (HTTPException 409 "Attendance record ID conflict"),
                 Fixture.store1_1000))
    by (vm_compute; reflexivity).
  repeat (split; [vm_compute; reflexivity|]).
  intros a s'. rewrite E. discriminate.
Qed.

Lemma create_employee_referential_witness :
  (Dict.get (organizations_db Fixture.store0) 9%N = None
   /\ create_employee Fixture.env4 (EmployeeBase.mk "John Roe" 9%N)
        Fixture.store0
      = (Raise (HTTPException 404
           "Organization with id 00000000-0000-0000-0000-000000000009 not found"),
         Fixture.store0))
  /\ (Dict.get (organizations_db Fixture.store0) 1%N = Some Fixture.org0
      /\ create_employee Fixture.env4 (EmployeeBase.mk "John Roe" 1%N)
           Fixture.store0
         = (Ok (Employee.mk "John Roe" 1%N 4%N),
            mkStore [(1%N, Fixture.org0)]
                    [(2%N, Fixture.emp0);
                     (4%N, Employee.mk "John Roe" 1%N 4%N)] [])).
Proof.
  split; (split; [reflexivity|]).
  - apply (proj1 (create_employee_referential Fixture.env4
                    (EmployeeBase.mk "John Roe" 9%N) Fixture.store0)).
    reflexivity.
  - apply (proj2 (create_employee_referential Fixture.env4
                    (EmployeeBase.mk "John Roe" 1%N) Fixture.store0)
             Fixture.org0); reflexivity.
Defined.

Lemma list_organizations_insertion_order_witness :
  fst (list_organizations
         (snd (run flat round2 fmt Fixture.session initial_store)))
  = Ok [Fixture.org0]
  /\ list_organizations
       (mkStore [(1%N, Organization.mk "A" Fixture.origin 1%N);
                 (2%N, Organization.mk "B" Fixture.origin 2%N);
                 (3%N, Organization.mk "C" Fixture.origin 3%N)] [] [])
     = (Ok [Organization.mk "A" Fixture.origin 1%N;
            Organization.mk "B" Fixture.origin 2%N;
            Organization.mk "C" Fixture.origin 3%N],
        mkStore [(1%N, Organization.mk "A" Fixture.origin 1%N);
                 (2%N, Organization.mk "B" Fixture.origin 2%N);
                 (3%N, Organization.mk "C" Fixture.origin 3%N)] [] []).
Proof.
  split.
  - rewrite (proj1 (list_organizations_insertion_order flat round2 fmt)
               Fixture.session).
    vm_compute. reflexivity.
  - apply (proj1 (proj2 (list_organizations_insertion_order flat round2 fmt))
             (mkEnv 1%N 0%Z) (mkEnv 2%N 0%Z) (mkEnv 3%N 0%Z)
             (OrganizationBase.mk "A" Fixture.origin)
             (OrganizationBase.mk "B" Fixture.origin)
             (OrganizationBase.mk "C" Fixture.origin)
             (mkStore [(1%N, Organization.mk "A" Fixture.origin 1%N)] [] [])
             (mkStore [(1%N, Organization.mk "A" Fixture.origin 1%N);
                       (2%N, Organization.mk "B" Fixture.origin 2%N)] [] []));
      vm_compute; reflexivity.
Defined.

Lemma GeoPoint_range_witness :
  (valid_pair ((-73.99)%float, 40.73%float)
   /\ GeoPoint_init ((-73.99)%float, 40.73%float)
      = Ok (mkGeoPoint Point ((-73.99)%float, 40.73%float)))
  /\ (~ valid_pair (200%float, 0%float)
      /\ exists msg : string,
           GeoPoint_init (200%float, 0%float)
           = Raise (ValidationError "coordinates" msg))
  /\ Forall (fun p => valid_pair (coordinates p))
            (stored_points
               (snd (run flat round2 fmt Fixture.session initial_store))).
Proof.
  assert (V : valid_pair ((-73.99)%float, 40.73%float))
    by (apply in_range_valid; reflexivity).
  assert (N : ~ valid_pair (200%float, 0%float)).
  { intros H. apply in_range_valid in H. discriminate H. }
  split; [|split].
  - split; [exact V|].
    apply (proj1 (GeoPoint_range flat round2 fmt
                    (-73.99)%float 40.73%float)).
    exact V.
  - split; [exact N|].
    apply (proj1 (proj2 (GeoPoint_range flat round2 fmt 200%float 0%float))).
    exact N.
  - apply (proj2 (proj2 (GeoPoint_range flat round2 fmt 0%float 0%float))).
    apply reachable_run. apply reachable_init.
Defined.

Lemma attendance_invariant_witness :
  store_inv flat round2 initial_store
  /\ store_inv flat round2
       (snd (handle flat round2 fmt Fixture.env3
               (POST_organizations "Example Corp" (0%float, 0%float))
               initial_store))
  /\ Forall (fun a =>
               exists (oid : UUID) (organization : Organization.t)
                      (d : float),
                 Attendance.organization_id a = Some oid
                 /\ Dict.get (organizations_db Fixture.store1) oid
                    = Some organization
                 /\ Attendance.distance_meters a = Some (round2 d)
                 /\ PrimFloat.ltb
                      (float_of_int MAX_CHECKIN_DISTANCE_METERS) d = false)
            (Dict.values (attendance_db Fixture.store1)).
Proof.
  split; [|split].
  - apply (proj1 (attendance_invariant flat round2 fmt)).
  - apply (proj1 (proj2 (attendance_invariant flat round2 fmt))).
    apply (proj1 (attendance_invariant flat round2 fmt)).
  - apply (proj2 (proj2 (proj2 (attendance_invariant flat round2 fmt)))).
    change Fixture.store1
      with (snd (run flat round2 fmt Fixture.session initial_store)).
    apply reachable_run. apply reachable_init.
Defined.

(** ** The further properties on concrete requests *)

Lemma create_organization_stores_witness :
  valid_pair (coordinates (OrganizationBase.location Fixture.org_data0))
  /\ create_organization Fixture.env1 Fixture.org_data0 initial_store
     = (Ok Fixture.org0, mkStore [(1%N, Fixture.org0)] [] []).
Proof.
  assert (V : valid_pair
                (coordinates (OrganizationBase.location Fixture.org_data0)))
    by (apply in_range_valid; reflexivity).
  split; [exact V|].
  apply (proj1 (create_organization_stores Fixture.env1 Fixture.org_data0
                  initial_store V eq_refl)).
Defined.

Lemma create_organization_refuses_out_of_range_witness :
  ~ valid_pair (coordinates (OrganizationBase.location Fixture.org_data_bad))
  /\ exists msg : string,
       create_organization Fixture.env4 Fixture.org_data_bad Fixture.store0
       = (Raise (ValidationError "coordinates" msg), Fixture.store0).
Proof.
  assert (V : ~ valid_pair
                  (coordinates
                     (OrganizationBase.location Fixture.org_data_bad))).
  { intros H. apply in_range_valid in H. discriminate H. }
  split; [exact V|].
  apply (create_organization_refuses_out_of_range Fixture.env4
           Fixture.org_data_bad Fixture.store0 V).
Defined.

Lemma create_organization_id_conflict_witness :
  Dict.get (organizations_db Fixture.store0) (uuid4 Fixture.env1)
  = Some Fixture.org0
  /\ create_organization Fixture.env1
       (OrganizationBase.mk "Other Corp" Fixture.origin) Fixture.store0
     = (Raise (HTTPException 409 "Organization ID conflict"), Fixture.store0).
Proof.
  assert (V : valid_pair (coordinates Fixture.origin))
    by (apply in_range_valid; reflexivity).
  split; [reflexivity|].
  apply (proj1 (create_organization_id_conflict Fixture.env1
                  (OrganizationBase.mk "Other Corp" Fixture.origin)
                  Fixture.store0 Fixture.org0 V eq_refl)).
Defined.

Lemma create_employee_id_conflict_witness :
  Dict.get (employees_db Fixture.store0) (uuid4 Fixture.env2)
  = Some Fixture.emp0
  /\ create_employee Fixture.env2 (EmployeeBase.mk "John Roe" 1%N)
       Fixture.store0
     = (Raise (HTTPException 409 "Employee ID conflict"), Fixture.store0).
Proof.
  split; [reflexivity|].
  apply (proj1 (create_employee_id_conflict Fixture.env2
                  (EmployeeBase.mk "John Roe" 1%N) Fixture.store0
                  Fixture.org0 Fixture.emp0 eq_refl eq_refl)).
Defined.

Lemma check_in_id_conflict_witness :
  Dict.contains (attendance_db Fixture.store1) (uuid4 Fixture.env3) = true
  /\ check_in flat round2 fmt Fixture.env3
       (CheckInRequest.mk 2%N (mkGeoPoint Point Fixture.near)) Fixture.store1
     = (Raise (HTTPException 409 "Attendance record ID conflict"),
        Fixture.store1).
Proof.
  split; [reflexivity|].
  apply (check_in_id_conflict flat round2 fmt Fixture.env3
           (CheckInRequest.mk 2%N (mkGeoPoint Point Fixture.near))
           Fixture.store1 Fixture.emp0 Fixture.org0);
    reflexivity.
Defined.

Lemma check_in_unknown_organization_witness :
  Dict.get (organizations_db Fixture.store_orphan)
           (Employee.organization_id Fixture.emp0) = None
  /\ check_in flat round2 fmt Fixture.env3
       (CheckInRequest.mk 2%N (mkGeoPoint Point Fixture.near))
       Fixture.store_orphan
     = (Raise (HTTPException 404
          "Organization with id 00000000-0000-0000-0000-000000000001 not found"),
        Fixture.store_orphan).
Proof.
  split; [reflexivity|].
  apply (check_in_unknown_organization flat round2 fmt Fixture.env3
           (CheckInRequest.mk 2%N (mkGeoPoint Point Fixture.near))
           Fixture.store_orphan Fixture.emp0);
    reflexivity.
Defined.

Lemma check_in_failures_witness :
  Fixture.store1 = Fixture.store1
  /\ exists detail : string,
       HTTPException 400
         "Check-in location is too far from the organization. Distance: 5559.75m, Allowed: 1000m"
       = HTTPException 404 detail
       \/ HTTPException 400
            "Check-in location is too far from the organization. Distance: 5559.75m, Allowed: 1000m"
          = HTTPException 400 detail
       \/ HTTPException 400
            "Check-in location is too far from the organization. Distance: 5559.75m, Allowed: 1000m"
          = HTTPException 409 detail.
Proof.
  apply (check_in_failures flat round2 fmt Fixture.env4
           (CheckInRequest.mk 2%N (mkGeoPoint Point Fixture.far))
           Fixture.store1 Fixture.store1).
  vm_compute. reflexivity.
Defined.

Lemma handle_failure_or_GET_unchanged_witness :
  handle flat round2 fmt Fixture.env4 (POST_employees "John Roe" 9%N)
    Fixture.store0
  = (Raise (HTTPException 404
       "Organization with id 00000000-0000-0000-0000-000000000009 not found"),
     Fixture.store0)
  /\ Fixture.store0 = Fixture.store0
  /\ snd (handle flat round2 fmt Fixture.env4 (GET_employees_id 9%N)
            Fixture.store0)
     = Fixture.store0.
Proof.
  assert (E : handle flat round2 fmt Fixture.env4
                (POST_employees "John Roe" 9%N) Fixture.store0
              = (Raise (HTTPException 404
                   "Organization with id 00000000-0000-0000-0000-000000000009 not found"),
                 Fixture.store0))
    by (vm_compute; reflexivity).
  split; [exact E|]. split.
  - apply (proj1 (handle_failure_or_GET_unchanged flat round2 fmt
                    Fixture.env4 (POST_employees "John Roe" 9%N)
                    Fixture.store0)
             _ _ E).
  - apply (proj2 (handle_failure_or_GET_unchanged flat round2 fmt
                    Fixture.env4 (GET_employees_id 9%N) Fixture.store0)).
    reflexivity.
Defined.

Lemma handle_frame_witness :
  organizations_db
    (snd (handle flat round2 fmt Fixture.env3
            (POST_attendance_checkin 2%N Fixture.near) Fixture.store0))
  = organizations_db Fixture.store0
  /\ employees_db
       (snd (handle flat round2 fmt Fixture.env3
               (POST_attendance_checkin 2%N Fixture.near) Fixture.store0))
     = employees_db Fixture.store0
  /\ attendance_db
       (snd (handle flat round2 fmt Fixture.env4
               (POST_employees "John Roe" 1%N) Fixture.store1))
     = attendance_db Fixture.store1.
Proof.
  split; [|split].
  - apply (proj1 (handle_frame flat round2 fmt Fixture.env3
                    (POST_attendance_checkin 2%N Fixture.near)
                    Fixture.store0)).
    intros name coords. discriminate.
  - apply (proj1 (proj2 (handle_frame flat round2 fmt Fixture.env3
                           (POST_attendance_checkin 2%N Fixture.near)
                           Fixture.store0))).
    intros name organization_id. discriminate.
  - apply (proj2 (proj2 (handle_frame flat round2 fmt Fixture.env4
                           (POST_employees "John Roe" 1%N)
                           Fixture.store1))).
    intros employee_id coords. discriminate.
Defined.

Lemma reachable_ids_unique_witness :
  NoDup (map Attendance.id
           (Dict.values
              (attendance_db
                 (snd (run flat round2 fmt Fixture.session initial_store)))))
  /\ forall k e,
       Dict.get (employees_db
                   (snd (run flat round2 fmt Fixture.session initial_store)))
                k = Some e ->
       Employee.id e = k.
Proof.
  pose proof (reachable_ids_unique flat round2 fmt
                (snd (run flat round2 fmt Fixture.session initial_store))
                (reachable_run flat round2 fmt Fixture.session initial_store
                   (reachable_init flat round2 fmt)))
    as (_ & _ & Ha & _ & He & _).
  split; [exact Ha | exact He].
Defined.

Lemma reachable_check_in_finds_organization_witness :
  Dict.get (employees_db
              (snd (run flat round2 fmt Fixture.session initial_store)))
           2%N = Some Fixture.emp0
  /\ exists organization : Organization.t,
       Dict.get (organizations_db
                   (snd (run flat round2 fmt Fixture.session initial_store)))
                (Employee.organization_id Fixture.emp0)
       = Some organization.
Proof.
  split; [reflexivity|].
  apply (proj1 (reachable_check_in_finds_organization flat round2 fmt
                  (snd (run flat round2 fmt Fixture.session initial_store))
                  Fixture.env4
                  (CheckInRequest.mk 2%N (mkGeoPoint Point Fixture.far))
                  Fixture.emp0
                  (reachable_run flat round2 fmt Fixture.session
                     initial_store (reachable_init flat round2 fmt))
                  eq_refl)).
Defined.

Lemma reachable_attendance_linked_witness :
  In Fixture.att3
     (Dict.values
        (attendance_db
           (snd (run flat round2 fmt Fixture.session initial_store))))
  /\ exists (e : Employee.t) (o : Organization.t),
       Dict.get (employees_db
                   (snd (run flat round2 fmt Fixture.session initial_store)))
                (Attendance.employee_id Fixture.att3) = Some e
       /\ Employee.id e = Attendance.employee_id Fixture.att3
       /\ Dict.get (organizations_db
                      (snd (run flat round2 fmt Fixture.session
                              initial_store)))
                   (Employee.organization_id e) = Some o
       /\ Attendance.organization_id Fixture.att3
          = Some (Organization.id o)
       /\ Attendance.distance_meters Fixture.att3
          = Some (round2 (calculate_distance_meters flat
                            (Attendance.location Fixture.att3)
                            (Organization.location o))).
Proof.
  assert (Hin : In Fixture.att3
                  (Dict.values
                     (attendance_db
                        (snd (run flat round2 fmt Fixture.session
                                initial_store)))))
    by (left; vm_compute; reflexivity).
  split; [exact Hin|].
  apply (reachable_attendance_linked flat round2 fmt
           (snd (run flat round2 fmt Fixture.session initial_store))
           Fixture.att3
           (reachable_run flat round2 fmt Fixture.session initial_store
              (reachable_init flat round2 fmt))
           Hin).
Defined.

Lemma reachable_get_employee_witness :
  (exists employee : Employee.t,
      get_employee 2%N
        (snd (run flat round2 fmt Fixture.session initial_store))
      = (Ok employee,
         snd (run flat round2 fmt Fixture.session initial_store))
      /\ Employee.id employee = 2%N
      /\ In employee
            (Dict.values
               (employees_db
                  (snd (run flat round2 fmt Fixture.session initial_store)))))
  \/ (get_employee 2%N
        (snd (run flat round2 fmt Fixture.session initial_store))
      = (Raise (HTTPException 404
           ("Employee with id " ++ str_UUID 2%N ++ " not found")%string),
         snd (run flat round2 fmt Fixture.session initial_store))
      /\ forall employee : Employee.t,
           In employee
              (Dict.values
                 (employees_db
                    (snd (run flat round2 fmt Fixture.session
                            initial_store)))) ->
           Employee.id employee <> 2%N).
Proof.
  apply (reachable_get_employee flat round2 fmt
           (snd (run flat round2 fmt Fixture.session initial_store)) 2%N
           (reachable_run flat round2 fmt Fixture.session initial_store
              (reachable_init flat round2 fmt))).
Defined.

Lemma created_employee_persists_witness :
  create_employee Fixture.env2 (EmployeeBase.mk "Jane Doe" 1%N)
    (mkStore [(1%N, Fixture.org0)] [] [])
  = (Ok Fixture.emp0, Fixture.store0)
  /\ get_employee (Employee.id Fixture.emp0)
       (snd (run flat round2 fmt
               [(Fixture.env3, POST_attendance_checkin 2%N Fixture.near);
                (Fixture.env4, POST_employees "John Roe" 1%N)]
               Fixture.store0))
     = (Ok Fixture.emp0,
        snd (run flat round2 fmt
               [(Fixture.env3, POST_attendance_checkin 2%N Fixture.near);
                (Fixture.env4, POST_employees "John Roe" 1%N)]
               Fixture.store0)).
Proof.
  split; [reflexivity|].
  apply (created_employee_persists flat round2 fmt Fixture.env2
           (EmployeeBase.mk "Jane Doe" 1%N)
           (mkStore [(1%N, Fixture.org0)] [] []) Fixture.store0
           Fixture.emp0).
  reflexivity.
Defined.

Lemma created_organization_accepts_employees_witness :
  create_organization Fixture.env1 Fixture.org_data0 initial_store
  = (Ok Fixture.org0, mkStore [(1%N, Fixture.org0)] [] [])
  /\ fst (create_employee Fixture.env4
            (EmployeeBase.mk "John Roe" (Organization.id Fixture.org0))
            (snd (run flat round2 fmt
                    [(Fixture.env2, POST_employees "Jane Doe" 1%N)]
                    (mkStore [(1%N, Fixture.org0)] [] []))))
     = Ok (Employee.mk "John Roe" (Organization.id Fixture.org0)
                       (uuid4 Fixture.env4)).
Proof.
  split; [reflexivity|].
  apply (proj2 (created_organization_accepts_employees flat round2 fmt
                  Fixture.env1 Fixture.org_data0 initial_store
                  (mkStore [(1%N, Fixture.org0)] [] []) Fixture.org0
                  [(Fixture.env2, POST_employees "Jane Doe" 1%N)]
                  Fixture.env4 "John Roe" eq_refl eq_refl)).
Defined.

Lemma check_in_after_registration_witness :
  fst (check_in flat round2 fmt Fixture.env3
         (CheckInRequest.mk (Employee.id Fixture.emp0)
            (mkGeoPoint Point Fixture.near))
         (snd (run flat round2 fmt [] Fixture.store0)))
  = Ok Fixture.att3
  /\ fst (check_in flat round2 fmt Fixture.env3
            (CheckInRequest.mk (Employee.id Fixture.emp0)
               (mkGeoPoint Point Fixture.far))
            (snd (run flat round2 fmt [] Fixture.store0)))
     = Raise (HTTPException 400
                "Check-in location is too far from the organization. Distance: 5559.75m, Allowed: 1000m").
Proof.
  split.
  - rewrite (check_in_after_registration flat round2 fmt
               Fixture.env1 Fixture.env2 Fixture.env3 Fixture.org_data0
               "Jane Doe" initial_store
               (mkStore [(1%N, Fixture.org0)] [] []) Fixture.store0
               Fixture.org0 Fixture.emp0 []
               (mkGeoPoint Point Fixture.near) eq_refl eq_refl eq_refl).
    vm_compute. reflexivity.
  - rewrite (check_in_after_registration flat round2 fmt
               Fixture.env1 Fixture.env2 Fixture.env3 Fixture.org_data0
               "Jane Doe" initial_store
               (mkStore [(1%N, Fixture.org0)] [] []) Fixture.store0
               Fixture.org0 Fixture.emp0 []
               (mkGeoPoint Point Fixture.far) eq_refl eq_refl eq_refl).
    vm_compute. reflexivity.
Defined.

Lemma validate_coordinates_report_witness :
  validate_coordinates (200%float, (-95)%float)
  = Raise (ValueError "Longitude must be between -180 and 180")
  /\ validate_coordinates (0%float, (-95)%float)
     = Raise (ValueError "Latitude must be between -90 and 90")
  /\ exists msg : string,
       validate_coordinates (0%float, nan) = Raise (ValueError msg).
Proof.
  assert (N200 : ~ value_within (-180) 180 200%float).
  { intros H.
    apply (within_value (-180) 180) in H;
      [discriminate H | vm_compute; reflexivity | vm_compute; reflexivity]. }
  assert (N95 : ~ value_within (-90) 90 (-95)%float).
  { intros H.
    apply (within_value (-90) 90) in H;
      [discriminate H | vm_compute; reflexivity | vm_compute; reflexivity]. }
  assert (V0 : value_within (-180) 180 0%float).
  { apply (within_value (-180) 180);
      [vm_compute; reflexivity | vm_compute; reflexivity | reflexivity]. }
  split; [|split].
  - apply (proj1 (validate_coordinates_report 200%float (-95)%float) N200).
  - apply (proj1 (proj2 (validate_coordinates_report 0%float (-95)%float))
             V0 N95).
  - apply (proj2 (proj2 (validate_coordinates_report 0%float nan))).
    right. reflexivity.
Defined.
